(** * otel-with-golang: a shallow embedding of [main.go]

    The program is one HTTP handler ([hello]) and the bootstrap of the
    OpenTelemetry trace and metric pipelines ([main]).  The external
    collaborators ([net/http], [encoding/json], the OpenTelemetry SDK, the
    process environment, the network) are modelled by small executable
    definitions that follow their documented contracts, parameterised where
    their answers are not decided by the program (see [World]). *)

From Stdlib Require Import ZArith Lia List String Ascii.
From stdpp Require Import base strings gmap list.

Local Open Scope Z_scope.

(** ** Package constants ([main.go], lines 31-39) *)

Definition serviceName : string := "hello-app".
Definition serviceVersion : string := "1.0".
Definition metricPrefix : string := "custom.metric.".
Definition numberOfExecName : string := metricPrefix +:+ "number.of.exec".
Definition numberOfExecDesc : string := "Count the number of executions.".
Definition heapMemoryName : string := metricPrefix +:+ "heap.memory".
Definition heapMemoryDesc : string := "Reports heap memory utilization.".

(** ** Fixed-width integers

    Go's [uint64] and [int64] are carried by [Z]; the conversion
    [int64(x)] keeps the low 64 bits and reads them in two's complement. *)

Module Int.

Definition uint64_max : Z := 2 ^ 64 - 1.
Definition int64_min : Z := - 2 ^ 63.
Definition int64_max : Z := 2 ^ 63 - 1.

Definition is_uint64 (x : Z) : Prop := 0 <= x <= uint64_max.
Definition is_int64 (x : Z) : Prop := int64_min <= x <= int64_max.

(** [int64(x)] for an integer operand. *)
Definition to_int64 (x : Z) : Z := (x + 2 ^ 63) mod 2 ^ 64 - 2 ^ 63.

End Int.

(** ** [encoding/json]: marshalling of [Response]

    [json.Marshal] writes a struct as an object whose keys are the field
    tags, and a string between double quotes with the escapes of
    [encodeState.string] (HTML escaping on).  Bytes at or above 0x80 are
    copied, which is what the encoder does for well-formed UTF-8 other than
    U+2028 and U+2029. *)

Module Json.

Definition dquote : ascii := "034"%char.
Definition backslash : ascii := "092"%char.

Definition hex_digit (n : N) : ascii :=
  match n with
  | 0%N => "0" | 1%N => "1" | 2%N => "2" | 3%N => "3" | 4%N => "4"
  | 5%N => "5" | 6%N => "6" | 7%N => "7" | 8%N => "8" | 9%N => "9"
  | 10%N => "a" | 11%N => "b" | 12%N => "c" | 13%N => "d" | 14%N => "e"
  | _ => "f"
  end%char.

(** [\u00XX] for a byte [b]. *)
Definition u00 (b : N) : string :=
  String backslash
    (String "u" (String "0" (String "0"
       (String (hex_digit (N.shiftr b 4))
          (String (hex_digit (N.land b 15)) EmptyString))))).

(** [htmlSafeSet]: the ASCII bytes written as they are. *)
Definition htmlSafe (b : N) : bool :=
  (32 <=? b)%N && negb (b =? 34)%N && negb (b =? 92)%N
  && negb (b =? 60)%N && negb (b =? 62)%N && negb (b =? 38)%N.

Definition escape_byte (c : ascii) : string :=
  let b := N_of_ascii c in
  if (128 <=? b)%N then String c EmptyString
  else if htmlSafe b then String c EmptyString
  else if (b =? 92)%N || (b =? 34)%N then String backslash (String c EmptyString)
  else if (b =? 10)%N then String backslash (String "n" EmptyString)
  else if (b =? 13)%N then String backslash (String "r" EmptyString)
  else if (b =? 9)%N then String backslash (String "t" EmptyString)
  else u00 b.

Fixpoint escape (s : string) : string :=
  match s with
  | EmptyString => EmptyString
  | String c s' => escape_byte c +:+ escape s'
  end.

Definition quote (s : string) : string :=
  String dquote (escape s +:+ String dquote EmptyString).

End Json.

(** The payload of the handler ([main.go], lines 183-186). *)
Record Response : Type := mkResponse { Message : string }.

(** [json.Marshal(response)]: one field, tagged [Message].  Marshalling a
    struct of one string cannot fail, so the error the program discards is
    always nil and only the bytes are modelled. *)
Definition json_Marshal (r : Response) : string :=
  "{" +:+ Json.quote "Message" +:+ ":" +:+ Json.quote (Message r) +:+ "}".

(** [Response.isValid] ([main.go], lines 188-190). *)
Definition isValid (r : Response) : bool := true.

(** ** [net/http]: the response writer

    [http.Header] is a map from canonical keys to lists of values.  The
    server's writer keeps the handler's live map ([handlerHeader]) and, from
    the first [WriteHeader] on, the snapshot that goes on the wire
    ([sentHeader]): the documentation of [ResponseWriter.Header] says that
    changing the header map after a call to WriteHeader (or Write) has no
    effect.  [sentHeader] holds the headers of the handler only: what the
    server adds of its own (Date, Content-Length, a sniffed Content-Type) is
    not part of it.  [body] holds the bytes the response has accepted from
    the handler; [headRequest] says that the request's method is HEAD, for
    which the server sends none of them ([sent_body]). *)

Module Http.

Definition StatusOK : Z := 200.

Definition is_lower (b : N) : bool := (97 <=? b)%N && (b <=? 122)%N.
Definition is_upper (b : N) : bool := (65 <=? b)%N && (b <=? 90)%N.
Definition is_digit (b : N) : bool := (48 <=? b)%N && (b <=? 57)%N.

(** The bytes allowed in a header field name (RFC 7230 token). *)
Definition is_token_byte (b : N) : bool :=
  is_lower b || is_upper b || is_digit b
  || existsb (N.eqb b) [33; 35; 36; 37; 38; 39; 42; 43; 45; 46; 94; 95; 96; 124; 126]%N.

Fixpoint valid_key (s : string) : bool :=
  match s with
  | EmptyString => true
  | String c s' => is_token_byte (N_of_ascii c) && valid_key s'
  end.

Fixpoint canonical_go (upper : bool) (s : string) : string :=
  match s with
  | EmptyString => EmptyString
  | String c s' =>
      let b := N_of_ascii c in
      let b' :=
        if upper && is_lower b then (b - 32)%N
        else if negb upper && is_upper b then (b + 32)%N
        else b in
      String (ascii_of_N b') (canonical_go (b =? 45)%N s')
  end.

(** [textproto.CanonicalMIMEHeaderKey]: a key with a byte outside the token
    set is returned unchanged. *)
Definition CanonicalMIMEHeaderKey (s : string) : string :=
  if valid_key s then canonical_go true s else s.

(** [Header.Add]: append [v] to the values of the canonical key. *)
Definition Header_Add (h : gmap string (list string)) (k v : string)
  : gmap string (list string) :=
  let k' := CanonicalMIMEHeaderKey k in
  <[k' := default [] (h !! k') ++ [v]]> h.

(** [Header.Values]. *)
Definition Header_Values (h : gmap string (list string)) (k : string) : list string :=
  default [] (h !! CanonicalMIMEHeaderKey k).

Record ResponseWriter : Type := mkRW {
  headRequest : bool;
  handlerHeader : gmap string (list string);
  wroteHeader : bool;
  status : Z;
  sentHeader : gmap string (list string);
  body : string
}.

(** A writer as the server hands it to a handler, for a request whose
    method is not HEAD. *)
Definition fresh : ResponseWriter :=
  mkRW false ∅ false 0 ∅ "".

(** The writer the server makes for a request of method [method]. *)
Definition for_method (method : string) : ResponseWriter :=
  mkRW (String.eqb method "HEAD") ∅ false 0 ∅ "".

(** [bodyAllowedForStatus]: no body after 1xx, 204 and 304. *)
Definition bodyAllowedForStatus (status : Z) : bool :=
  negb ((100 <=? status) && (status <=? 199))
  && negb (status =? 204) && negb (status =? 304).

(** [w.WriteHeader(code)]: the first call fixes the status and the header
    that is sent; a later call changes nothing. *)
Definition WriteHeader (code : Z) (w : ResponseWriter) : ResponseWriter :=
  if wroteHeader w then w
  else mkRW (headRequest w) (handlerHeader w) true code (handlerHeader w) (body w).

(** [w.Header().Add(k, v)]: the live map of the handler is changed. *)
Definition HeaderAdd (k v : string) (w : ResponseWriter) : ResponseWriter :=
  mkRW (headRequest w) (Header_Add (handlerHeader w) k v) (wroteHeader w) (status w)
       (sentHeader w) (body w).

(** [w.Write(b)]: an implicit [WriteHeader(200)] when none was made; the
    bytes are accepted when the status allows a body, and refused with
    [ErrBodyNotAllowed] (which leaves the response as it is) when not. *)
Definition Write (b : string) (w : ResponseWriter) : ResponseWriter :=
  let w' := WriteHeader StatusOK w in
  if bodyAllowedForStatus (status w') then
    mkRW (headRequest w') (handlerHeader w') (wroteHeader w') (status w')
         (sentHeader w') (body w' +:+ b)
  else w'.


End Http.

(** ** OpenTelemetry: the data the program hands to the SDK *)

(** [semconv.ServiceNameKey] and [semconv.ServiceVersionKey] (v1.4.0). *)
Definition ServiceNameKey : string := "service.name".
Definition ServiceVersionKey : string := "service.version".

(** [sdkapi.InstrumentKind]. *)
Inductive InstrumentKind : Type :=
  | HistogramInstrumentKind
  | GaugeObserverInstrumentKind
  | CounterInstrumentKind
  | UpDownCounterInstrumentKind
  | CounterObserverInstrumentKind
  | UpDownCounterObserverInstrumentKind.

(** [InstrumentKind.Asynchronous]. *)
Definition Asynchronous (k : InstrumentKind) : bool :=
  match k with
  | GaugeObserverInstrumentKind
  | CounterObserverInstrumentKind
  | UpDownCounterObserverInstrumentKind => true
  | _ => false
  end.

(** [InstrumentKind.Monotonic]. *)
Definition Monotonic (k : InstrumentKind) : bool :=
  match k with
  | CounterInstrumentKind | CounterObserverInstrumentKind => true
  | _ => false
  end.

Record Descriptor : Type := mkDescriptor {
  d_name : string;
  d_kind : InstrumentKind;
  d_description : string
}.

(** [runtime.MemStats], the field the program reads (a [uint64]). *)
Record MemStats : Type := mkMemStats { HeapAlloc : Z }.

(** What a callback hands to [result.Observe]. *)
Record Observation : Type := mkObservation {
  o_value : Z;
  o_attrs : list (string * string)
}.

Record Instrument : Type := mkInstrument {
  i_descriptor : Descriptor;
  i_callback : option (MemStats -> Observation)
}.

(** A handle returned by [Bind]. *)
Record BoundInt64Counter : Type := mkBound {
  b_instrument : string;
  b_attrs : list (string * string)
}.

(** The part of a [context.Context] the program depends on: the span it
    carries. *)
Record Context : Type := mkContext { ctx_span : option nat }.

Definition context_Background : Context := mkContext None.

Record Span : Type := mkSpan {
  span_name : string;
  span_id : nat;
  parent_id : option nat;
  start_time : Z;
  end_time : option Z
}.

(** One accepted [Add] on a synchronous instrument. *)
Record Measurement : Type := mkMeasurement {
  m_instrument : string;
  m_attrs : list (string * string);
  m_ctx : Context;
  m_delta : Z
}.

(** Options of the two OTLP gRPC exporters, as the program lists them, and
    the configuration they produce from the library's default. *)
Inductive ExporterOption : Type :=
  | WithInsecure
  | WithEndpoint (endpoint : string)
  | WithDialOption_WithBlock.

Record ExporterConfig : Type := mkExporterConfig {
  cfg_insecure : bool;
  cfg_endpoint : string;
  cfg_block : bool
}.

Definition default_exporter_config : ExporterConfig :=
  mkExporterConfig false "localhost:4317" false.

Definition apply_option (c : ExporterConfig) (o : ExporterOption) : ExporterConfig :=
  match o with
  | WithInsecure => mkExporterConfig true (cfg_endpoint c) (cfg_block c)
  | WithEndpoint e => mkExporterConfig (cfg_insecure c) e (cfg_block c)
  | WithDialOption_WithBlock => mkExporterConfig (cfg_insecure c) (cfg_endpoint c) true
  end.

Definition exporter_config (opts : list ExporterOption) : ExporterConfig :=
  fold_left apply_option opts default_exporter_config.

Inductive Sampler : Type := AlwaysSample | NeverSample.

Inductive Propagator : Type := Baggage | TraceContext.

Inductive AggregatorSelector : Type := NewWithExactDistribution | NewWithInexpensiveDistribution.

Record TracerProvider : Type := mkTracerProvider {
  tp_sampler : Sampler;
  tp_resource : gmap string string;
  tp_batch_exporter : ExporterConfig
}.

Record Controller : Type := mkController {
  c_selector : AggregatorSelector;
  c_processor_exporter : ExporterConfig;
  c_resource : gmap string string;
  c_exporter : ExporterConfig;
  c_collectPeriod : Z
}.

(** [time.Second], in nanoseconds. *)
Definition time_Second : Z := 1000000000.

(** ** The world outside the program

    Every answer of an external collaborator that the program branches on. *)

Inductive NewResult : Type :=
  | NewOk
  | NewErr (err : string)
  | NewBlocks.

Inductive ListenResult : Type :=
  | ListenErr (err : string)
  | ListenServes.

Record World : Type := mkWorld {
  environ : gmap string string;
  w_resource_New : list (string * string) -> option string;
  w_otlptracegrpc_New : ExporterConfig -> NewResult;
  w_otlpmetricgrpc_New : ExporterConfig -> NewResult;
  w_pusher_Start : option string;
  w_NewInt64Counter : option string;
  w_NewInt64CounterObserver : option string;
  w_ListenAndServe : string -> ListenResult;
  w_time_Now : nat -> Z;
  w_ReadMemStats : nat -> MemStats
}.

(** ** Process state and the monad of Go statements *)

Inductive Event : Type :=
  | EGetenv (key value : string)
  | EResourceNew (attrs : list (string * string))
  | ELog (msg : string)
  | ENewTraceExporter (cfg : ExporterConfig)
  | ESetTracerProvider
  | ESetTextMapPropagator
  | ENewMetricExporter (cfg : ExporterConfig)
  | EPusherStart (ok : bool)
  | EPusherStop
  | ESetMeterProvider
  | ENewInstrument (d : Descriptor)
  | EListenAndServe (addr : string)
  | ESpanStart (name : string) (id : nat)
  | ESpanEnd (id : nat)
  | EWriteHeader (code : Z)
  | EHeaderAdd (key value : string)
  | EWrite (bytes : string)
  | EAdd (instrument : string) (delta : Z).

(** A deferred call of [main]: the only one is the closure around
    [pusher.Stop(ctx)]. *)
Inductive Deferred : Type := DeferPusherStop.

Record Globals : Type := mkGlobals {
  g_tracerProvider : option TracerProvider;
  g_propagator : list Propagator;
  g_meterProvider : option Controller;
  tracer : option string;
  meter : option string;
  numberOfExecutions : option BoundInt64Counter;
  g_instruments : list Instrument
}.

Record Sdk : Type := mkSdk {
  reads : nat;
  next_id : nat;
  live : gmap nat Span;
  finished : list Span;
  measurements : list Measurement
}.

Record State : Type := mkState {
  trace : list Event;
  defers : list Deferred;
  globals : Globals;
  sdk : Sdk
}.

Definition no_globals : Globals := mkGlobals None [] None None None None [].

Definition initial_state : State :=
  mkState [] [] no_globals (mkSdk 0 0 ∅ [] []).

Inductive BlockReason : Type := BlockDialTrace | BlockDialMetric | BlockServing.

(** How a statement ends: normally, by [os.Exit], by a panic, or never. *)
Inductive Res (A : Type) : Type :=
  | Ok (a : A)
  | Exit (code : Z)
  | Panic (msg : string)
  | Blocked (why : BlockReason).

Arguments Ok {A} a.
Arguments Exit {A} code.
Arguments Panic {A} msg.
Arguments Blocked {A} why.

Definition Go (A : Type) : Type := World -> State -> Res A * State.

#[global] Instance Go_ret : MRet Go := fun A a _ st => (Ok a, st).

#[global] Instance Go_bind : MBind Go := fun A B f m w st =>
  match m w st with
  | (Ok a, st') => f a w st'
  | (Exit c, st') => (Exit c, st')
  | (Panic msg, st') => (Panic msg, st')
  | (Blocked why, st') => (Blocked why, st')
  end.

Definition emit (e : Event) : Go unit := fun _ st =>
  (Ok tt, mkState (trace st ++ [e]) (defers st) (globals st) (sdk st)).

Definition get_world : Go World := fun w st => (Ok w, st).
Definition get_globals : Go Globals := fun _ st => (Ok (globals st), st).
Definition get_sdk : Go Sdk := fun _ st => (Ok (sdk st), st).

Definition set_globals (g : Globals) : Go unit := fun _ st =>
  (Ok tt, mkState (trace st) (defers st) g (sdk st)).

Definition set_sdk (s : Sdk) : Go unit := fun _ st =>
  (Ok tt, mkState (trace st) (defers st) (globals st) s).

(** [defer f]. *)
Definition defer (d : Deferred) : Go unit := fun _ st =>
  (Ok tt, mkState (trace st) (d :: defers st) (globals st) (sdk st)).

Definition os_Exit {A} (code : Z) : Go A := fun _ st => (Exit code, st).
Definition panic {A} (msg : string) : Go A := fun _ st => (Panic msg, st).
Definition block {A} (why : BlockReason) : Go A := fun _ st => (Blocked why, st).

(** [log.Print]. *)
Definition log_Print (msg : string) : Go unit := emit (ELog msg).

(** [log.Fatalf("%s: %v", what, err)]: print, then [os.Exit(1)]; deferred
    calls do not run. *)
Definition log_Fatalf {A} (what err : string) : Go A :=
  emit (ELog (what +:+ ": " +:+ err));; os_Exit 1.

Definition modify_globals (f : Globals -> Globals) : Go unit :=
  g ← get_globals; set_globals (f g).

(** ** The calls the program makes into its libraries *)

(** [os.Getenv]: the empty string when the variable is not set. *)
Definition os_Getenv (key : string) : Go string :=
  w ← get_world;
  let v := default "" (environ w !! key) in
  emit (EGetenv key v);; mret v.

(** [resource.New(ctx, resource.WithAttributes(attrs...))]. *)
Definition resource_New (attrs : list (string * string))
  : Go (gmap string string + string) :=
  w ← get_world;
  emit (EResourceNew attrs);;
  mret (match w_resource_New w attrs with
        | None => inl (list_to_map attrs)
        | Some err => inr err
        end).

(** [otlptracegrpc.New(ctx, opts...)]. *)
Definition otlptracegrpc_New (opts : list ExporterOption) : Go (ExporterConfig + string) :=
  w ← get_world;
  let cfg := exporter_config opts in
  emit (ENewTraceExporter cfg);;
  match w_otlptracegrpc_New w cfg with
  | NewOk => mret (inl cfg)
  | NewErr err => mret (inr err)
  | NewBlocks => block BlockDialTrace
  end.

(** [otlpmetricgrpc.New(ctx, opts...)]. *)
Definition otlpmetricgrpc_New (opts : list ExporterOption) : Go (ExporterConfig + string) :=
  w ← get_world;
  let cfg := exporter_config opts in
  emit (ENewMetricExporter cfg);;
  match w_otlpmetricgrpc_New w cfg with
  | NewOk => mret (inl cfg)
  | NewErr err => mret (inr err)
  | NewBlocks => block BlockDialMetric
  end.

(** [otel.SetTracerProvider]. *)
Definition otel_SetTracerProvider (tp : TracerProvider) : Go unit :=
  modify_globals (fun g =>
    mkGlobals (Some tp) (g_propagator g) (g_meterProvider g) (tracer g)
              (meter g) (numberOfExecutions g) (g_instruments g));;
  emit ESetTracerProvider.

(** [otel.SetTextMapPropagator(propagation.NewCompositeTextMapPropagator(ps...))]. *)
Definition otel_SetTextMapPropagator (ps : list Propagator) : Go unit :=
  modify_globals (fun g =>
    mkGlobals (g_tracerProvider g) ps (g_meterProvider g) (tracer g)
              (meter g) (numberOfExecutions g) (g_instruments g));;
  emit ESetTextMapPropagator.

(** [pusher.Start(ctx)]. *)
Definition pusher_Start : Go (option string) :=
  w ← get_world;
  emit (EPusherStart (bool_decide (w_pusher_Start w = None)));;
  mret (w_pusher_Start w).

(** [global.SetMeterProvider(pusher.MeterProvider())]. *)
Definition global_SetMeterProvider (c : Controller) : Go unit :=
  modify_globals (fun g =>
    mkGlobals (g_tracerProvider g) (g_propagator g) (Some c) (tracer g)
              (meter g) (numberOfExecutions g) (g_instruments g));;
  emit ESetMeterProvider.

Definition set_tracer (name : string) : Go unit :=
  modify_globals (fun g =>
    mkGlobals (g_tracerProvider g) (g_propagator g) (g_meterProvider g) (Some name)
              (meter g) (numberOfExecutions g) (g_instruments g)).

Definition set_meter (name : string) : Go unit :=
  modify_globals (fun g =>
    mkGlobals (g_tracerProvider g) (g_propagator g) (g_meterProvider g) (tracer g)
              (Some name) (numberOfExecutions g) (g_instruments g)).

Definition set_numberOfExecutions (b : BoundInt64Counter) : Go unit :=
  modify_globals (fun g =>
    mkGlobals (g_tracerProvider g) (g_propagator g) (g_meterProvider g) (tracer g)
              (meter g) (Some b) (g_instruments g)).

Definition register (i : Instrument) : Go unit :=
  modify_globals (fun g =>
    mkGlobals (g_tracerProvider g) (g_propagator g) (g_meterProvider g) (tracer g)
              (meter g) (numberOfExecutions g) (g_instruments g ++ [i]));;
  emit (ENewInstrument (i_descriptor i)).

(** [metric.Must(meter).NewInt64Counter(name, metric.WithDescription(desc))]:
    [Must] panics when the meter reports an error. *)
Definition Must_NewInt64Counter (name desc : string) : Go string :=
  w ← get_world;
  match w_NewInt64Counter w with
  | Some err => panic err
  | None =>
      register (mkInstrument (mkDescriptor name CounterInstrumentKind desc) None);;
      mret name
  end.

(** [metric.Must(meter).NewInt64CounterObserver(name, callback,
    metric.WithDescription(desc))]. *)
Definition Must_NewInt64CounterObserver (name : string)
    (callback : MemStats -> Observation) (desc : string) : Go string :=
  w ← get_world;
  match w_NewInt64CounterObserver w with
  | Some err => panic err
  | None =>
      register (mkInstrument (mkDescriptor name CounterObserverInstrumentKind desc)
                             (Some callback));;
      mret name
  end.

(** [http.ListenAndServe(addr, router)]: returns only with an error. *)
Definition http_ListenAndServe (addr : string) : Go string :=
  w ← get_world;
  emit (EListenAndServe addr);;
  match w_ListenAndServe w addr with
  | ListenErr err => mret err
  | ListenServes => block BlockServing
  end.

(** [tracer.Start(ctx, name)]: a new span whose parent is the span of [ctx];
    the context returned carries the new span.  Calling a method of the
    package variable [tracer] before [main] has set it is a nil
    dereference.  A span is identified here by the order of its creation;
    the SDK draws its identifier at random, so which identifiers differ is
    not a property of the program and none is stated of it. *)
Definition tracer_Start (ctx : Context) (name : string) : Go (Context * nat) :=
  g ← get_globals;
  match tracer g with
  | None => panic "invalid memory address or nil pointer dereference"
  | Some _ =>
      w ← get_world;
      s ← get_sdk;
      let id := next_id s in
      let sp := mkSpan name id (ctx_span ctx) (w_time_Now w (reads s)) None in
      set_sdk (mkSdk (S (reads s)) (S id) (<[id := sp]> (live s))
                     (finished s) (measurements s));;
      emit (ESpanStart name id);;
      mret (mkContext (Some id), id)
  end.

Definition sampled (g : Globals) : bool :=
  match g_tracerProvider g with
  | Some tp => match tp_sampler tp with AlwaysSample => true | NeverSample => false end
  | None => false
  end.

(** [span.End()]: the first call stamps the end time and hands a sampled
    span to the span processor; a call on a span that has ended does
    nothing. *)
Definition span_End (id : nat) : Go unit :=
  g ← get_globals;
  w ← get_world;
  s ← get_sdk;
  match live s !! id with
  | None => mret tt
  | Some sp =>
      let sp' := mkSpan (span_name sp) (span_id sp) (parent_id sp) (start_time sp)
                        (Some (w_time_Now w (reads s))) in
      set_sdk (mkSdk (S (reads s)) (next_id s) (delete id (live s))
                     (if sampled g then finished s ++ [sp'] else finished s)
                     (measurements s));;
      emit (ESpanEnd id)
  end.

(** [numberOfExecutions.Add(ctx, delta)]: a negative delta on a counter is
    reported to the SDK's error handler and not recorded. *)
Definition numberOfExecutions_Add (ctx : Context) (delta : Z) : Go unit :=
  g ← get_globals;
  match numberOfExecutions g with
  | None => panic "invalid memory address or nil pointer dereference"
  | Some b =>
      s ← get_sdk;
      emit (EAdd (b_instrument b) delta);;
      if delta <? 0 then mret tt
      else set_sdk (mkSdk (reads s) (next_id s) (live s) (finished s)
                          (measurements s ++
                             [mkMeasurement (b_instrument b) (b_attrs b) ctx delta]))
  end.

(** The value a counter has accumulated: the sum of its recorded deltas. *)
Definition accumulated (name : string) (s : Sdk) : Z :=
  foldr (fun m acc => if String.eqb (m_instrument m) name then m_delta m + acc else acc)
        0 (measurements s).

(** ** The program *)

(** The callback of the heap-memory instrument ([main.go], lines 133-139):
    [result.Observe(int64(mem.HeapAlloc), attribute.String(heapMemoryName,
    heapMemoryDesc))]. *)
Definition heapMemoryCallback (mem : MemStats) : Observation :=
  mkObservation (Int.to_int64 (HeapAlloc mem)) [(heapMemoryName, heapMemoryDesc)].

Definition exporter_options (endpoint : string) : list ExporterOption :=
  [WithInsecure; WithEndpoint endpoint; WithDialOption_WithBlock].

(** [main] ([main.go], lines 47-148). *)
Definition main : Go unit :=
  endpoint ← os_Getenv "EXPORTER_ENDPOINT";
  (* Resource for traces and metrics *)
  r ← resource_New [(ServiceNameKey, serviceName); (ServiceVersionKey, serviceVersion)];
  res0urce ← match r with
             | inl res => mret res
             | inr err => log_Fatalf "failed to create resource" err
             end;
  (* Setup the tracing *)
  r ← otlptracegrpc_New (exporter_options endpoint);
  traceExporter ← match r with
                  | inl e => mret e
                  | inr err => log_Fatalf "failed to create exporter" err
                  end;
  otel_SetTracerProvider (mkTracerProvider AlwaysSample res0urce traceExporter);;
  otel_SetTextMapPropagator [Baggage; TraceContext];;
  (* Setup the metrics *)
  r ← otlpmetricgrpc_New (exporter_options endpoint);
  metricExporter ← match r with
                   | inl e => mret e
                   | inr err => log_Fatalf "failed to create exporter" err
                   end;
  let pusher := mkController NewWithExactDistribution metricExporter res0urce
                             metricExporter (5 * time_Second) in
  err ← pusher_Start;
  match err with
  | Some err => log_Fatalf "failed to start the controller" err
  | None => mret tt
  end;;
  defer DeferPusherStop;;
  global_SetMeterProvider pusher;;
  (* Support for programatic traces and metrics *)
  set_tracer "io.opentelemetry.traces.hello";;
  set_meter "io.opentelemetry.metrics.hello";;
  (* Metric that is updated manually *)
  c ← Must_NewInt64Counter numberOfExecName numberOfExecDesc;
  set_numberOfExecutions (mkBound c [(numberOfExecName, numberOfExecDesc)]);;
  (* Metric that updates automatically *)
  Must_NewInt64CounterObserver heapMemoryName heapMemoryCallback heapMemoryDesc;;
  (* Start the API with instrumentation *)
  http_ListenAndServe ":8888";;
  mret tt.

(** [buildResponse] ([main.go], lines 170-181). *)
Definition buildResponse (writer : Http.ResponseWriter) : Go (Http.ResponseWriter * Response) :=
  emit (EWriteHeader Http.StatusOK);;
  let writer := Http.WriteHeader Http.StatusOK writer in
  emit (EHeaderAdd "Content-Type" "application/json");;
  let writer := Http.HeaderAdd "Content-Type" "application/json" writer in
  let response := mkResponse "Hello World" in
  let bytes := json_Marshal response in
  emit (EWrite bytes);;
  let writer := Http.Write bytes writer in
  mret (writer, response).

Record Request : Type := mkRequest {
  req_method : string;
  req_path : string;
  req_ctx : Context
}.

(** [hello] ([main.go], lines 150-168).  The first [tracer.Start] assigns
    its context to [ctx]; the second discards the context it returns. *)
Definition hello (writer : Http.ResponseWriter) (request : Request) : Go Http.ResponseWriter :=
  let ctx := req_ctx request in
  '(ctx, buildResp) ← tracer_Start ctx "buildResponse";
  '(writer, response) ← buildResponse writer;
  span_End buildResp;;
  (* Creating a custom span just for fun... *)
  '(_, mySpan) ← tracer_Start ctx "mySpan";
  (if isValid response then log_Print "The response is valid" else mret tt);;
  span_End mySpan;;
  (* Updating the number of executions metric... *)
  numberOfExecutions_Add ctx 1;;
  mret writer.

(** ** Running the process *)

Definition run_deferred (st : State) (d : Deferred) : State :=
  match d with
  | DeferPusherStop =>
      mkState (trace st ++ [EPusherStop]) (defers st) (globals st) (sdk st)
  end.

(** Deferred calls run, last first, when [main] returns or panics. *)
Definition unwind (st : State) : State :=
  fold_left run_deferred (defers st)
            (mkState (trace st) [] (globals st) (sdk st)).

Inductive Outcome : Type :=
  | Exited (code : Z)
  | Running (why : BlockReason).

(** The process from its start: a return of [main] exits with 0, a panic
    with 2 (both after the deferred calls), [os.Exit] at once. *)
Definition run_main (w : World) : Outcome * State :=
  match main w initial_state with
  | (Ok _, st) => (Exited 0, unwind st)
  | (Panic _, st) => (Exited 2, unwind st)
  | (Exit code, st) => (Exited code, st)
  | (Blocked why, st) => (Running why, st)
  end.

(** One request through the router: the server makes the writer for the
    request, the [otelmux] middleware puts the route's span around the
    handler; another path is answered by [http.NotFound] and meets
    neither. *)
Definition serve_request (req : Request) : Go Http.ResponseWriter :=
  if String.eqb (req_path req) "/hello" then
    '(ctx, root) ← tracer_Start (req_ctx req) "/hello";
    writer ← hello (Http.for_method (req_method req))
                   (mkRequest (req_method req) (req_path req) ctx);
    span_End root;;
    mret writer
  else
    mret (Http.Write ("404 page not found" +:+ String "010"%char EmptyString)
            (Http.WriteHeader 404
               (Http.HeaderAdd "X-Content-Type-Options" "nosniff"
                  (Http.HeaderAdd "Content-Type" "text/plain; charset=utf-8"
                     (Http.for_method (req_method req)))))).

Fixpoint serve (reqs : list Request) : Go (list Http.ResponseWriter) :=
  match reqs with
  | [] => mret []
  | req :: reqs' =>
      writer ← serve_request req;
      writers ← serve reqs';
      mret (writer :: writers)
  end.

(** ** Export *)

Record SpanRecord : Type := mkSpanRecord {
  sr_resource : gmap string string;
  sr_span : Span
}.

Record MetricRecord : Type := mkMetricRecord {
  mr_resource : gmap string string;
  mr_descriptor : Descriptor;
  mr_value : Z;
  mr_attrs : list (string * string)
}.

(** The batch span processor exports the finished spans under the resource
    of the tracer provider. *)
Definition exported_spans (st : State) : list SpanRecord :=
  match g_tracerProvider (globals st) with
  | Some tp => mkSpanRecord (tp_resource tp) <$> finished (sdk st)
  | None => []
  end.

(** The [n]-th collection of the controller: every instrument is
    snapshotted, callbacks are run on the memory statistics of that moment,
    and the records go out under the controller's resource. *)
Definition collect (w : World) (n : nat) (st : State) : list MetricRecord :=
  match g_meterProvider (globals st) with
  | Some c =>
      (fun i =>
         match i_callback i with
         | Some f =>
             let o := f (w_ReadMemStats w n) in
             mkMetricRecord (c_resource c) (i_descriptor i) (o_value o) (o_attrs o)
         | None =>
             mkMetricRecord (c_resource c) (i_descriptor i)
               (accumulated (d_name (i_descriptor i)) (sdk st))
               (match numberOfExecutions (globals st) with
                | Some b => b_attrs b
                | None => []
                end)
         end) <$> g_instruments (globals st)
  | None => []
  end.

(** ** Notions the statements are written with *)

(** A state in which the handler may run: [main] has set the package
    variables it uses. *)
Definition Ready (st : State) : Prop :=
  is_Some (tracer (globals st)) /\ is_Some (numberOfExecutions (globals st)).

(** The state after [emit]ting the events [evs]. *)
Definition emitted (evs : list Event) (st : State) : State :=
  mkState (trace st ++ evs) (defers st) (globals st) (sdk st).

(** The state with its SDK part replaced. *)
Definition with_sdk (s : Sdk) (st : State) : State :=
  mkState (trace st) (defers st) (globals st) s.

(** The span [sp] ended at the next reading of the clock. *)
Definition end_span (w : World) (s : Sdk) (sp : Span) : Span :=
  mkSpan (span_name sp) (span_id sp) (parent_id sp) (start_time sp)
         (Some (w_time_Now w (reads s))).

(** The bytes [buildResponse] writes. *)
Definition response_body : string := json_Marshal (mkResponse "Hello World").

(** The writer as [buildResponse] leaves it. *)
Definition built (writer : Http.ResponseWriter) : Http.ResponseWriter :=
  Http.Write response_body
    (Http.HeaderAdd "Content-Type" "application/json"
       (Http.WriteHeader Http.StatusOK writer)).

(** The spans of one execution of [hello] from a state whose SDK is [s]. *)
Definition buildResponse_span (w : World) (s : Sdk) (req : Request) : Span :=
  mkSpan "buildResponse" (next_id s) (ctx_span (req_ctx req))
         (w_time_Now w (reads s)) (Some (w_time_Now w (S (reads s)))).

Definition mySpan_span (w : World) (s : Sdk) : Span :=
  mkSpan "mySpan" (S (next_id s)) (Some (next_id s))
         (w_time_Now w (S (S (reads s)))) (Some (w_time_Now w (S (S (S (reads s)))))).

(** The events of one execution of [hello]. *)
Definition hello_events (s : Sdk) (b : BoundInt64Counter) : list Event :=
  [ESpanStart "buildResponse" (next_id s);
   EWriteHeader Http.StatusOK;
   EHeaderAdd "Content-Type" "application/json";
   EWrite response_body;
   ESpanEnd (next_id s);
   ESpanStart "mySpan" (S (next_id s));
   ELog "The response is valid";
   ESpanEnd (S (next_id s));
   EAdd (b_instrument b) 1].

(** The SDK after one execution of [hello]. *)
Definition hello_sdk (w : World) (g : Globals) (req : Request) (b : BoundInt64Counter)
    (s : Sdk) : Sdk :=
  mkSdk (4 + reads s) (2 + next_id s)
        (delete (S (next_id s)) (delete (next_id s) (live s)))
        (if sampled g
         then finished s ++ [buildResponse_span w s req; mySpan_span w s]
         else finished s)
        (measurements s ++
           [mkMeasurement (b_instrument b) (b_attrs b) (mkContext (Some (next_id s))) 1]).

(** The attributes [main] gives to [resource.New]. *)
Definition resource_attrs : list (string * string) :=
  [(ServiceNameKey, serviceName); (ServiceVersionKey, serviceVersion)].

(** The endpoint [main] reads from the environment. *)
Definition endpoint_of (w : World) : string :=
  default "" (environ w !! "EXPORTER_ENDPOINT").

(** The configuration both exporters are built with. *)
Definition dial_config (w : World) : ExporterConfig :=
  mkExporterConfig true (endpoint_of w) true.

(** The descriptors of the two instruments [main] registers. *)
Definition counter_descriptor : Descriptor :=
  mkDescriptor numberOfExecName CounterInstrumentKind numberOfExecDesc.

Definition heap_descriptor : Descriptor :=
  mkDescriptor heapMemoryName CounterObserverInstrumentKind heapMemoryDesc.

(** The events of [main], up to each of its stages. *)
Definition ev_env (w : World) : list Event :=
  [EGetenv "EXPORTER_ENDPOINT" (endpoint_of w); EResourceNew resource_attrs].

Definition ev_trace (w : World) : list Event :=
  ev_env w ++ [ENewTraceExporter (dial_config w)].

Definition ev_metric (w : World) : list Event :=
  ev_trace w ++
  [ESetTracerProvider; ESetTextMapPropagator; ENewMetricExporter (dial_config w)].

Definition ev_started (w : World) : list Event :=
  ev_metric w ++ [EPusherStart true; ESetMeterProvider].

Definition ev_counter (w : World) : list Event :=
  ev_started w ++ [ENewInstrument counter_descriptor].

Definition ev_listen (w : World) : list Event :=
  ev_counter w ++ [ENewInstrument heap_descriptor; EListenAndServe ":8888"].

(** The line [log.Fatalf] prints. *)
Definition fatal (what err : string) : Event := ELog (what +:+ ": " +:+ err).

(** Every way the process can go, by the first answer of the world that is
    not a success, with the events it leaves. *)
Inductive Startup (w : World) : Outcome -> list Event -> Prop :=
  | Startup_resource err :
      w_resource_New w resource_attrs = Some err ->
      Startup w (Exited 1) (ev_env w ++ [fatal "failed to create resource" err])
  | Startup_trace_err err :
      w_resource_New w resource_attrs = None ->
      w_otlptracegrpc_New w (dial_config w) = NewErr err ->
      Startup w (Exited 1) (ev_trace w ++ [fatal "failed to create exporter" err])
  | Startup_trace_blocks :
      w_resource_New w resource_attrs = None ->
      w_otlptracegrpc_New w (dial_config w) = NewBlocks ->
      Startup w (Running BlockDialTrace) (ev_trace w)
  | Startup_metric_err err :
      w_resource_New w resource_attrs = None ->
      w_otlptracegrpc_New w (dial_config w) = NewOk ->
      w_otlpmetricgrpc_New w (dial_config w) = NewErr err ->
      Startup w (Exited 1) (ev_metric w ++ [fatal "failed to create exporter" err])
  | Startup_metric_blocks :
      w_resource_New w resource_attrs = None ->
      w_otlptracegrpc_New w (dial_config w) = NewOk ->
      w_otlpmetricgrpc_New w (dial_config w) = NewBlocks ->
      Startup w (Running BlockDialMetric) (ev_metric w)
  | Startup_controller err :
      w_resource_New w resource_attrs = None ->
      w_otlptracegrpc_New w (dial_config w) = NewOk ->
      w_otlpmetricgrpc_New w (dial_config w) = NewOk ->
      w_pusher_Start w = Some err ->
      Startup w (Exited 1)
        (ev_metric w ++ [EPusherStart false; fatal "failed to start the controller" err])
  | Startup_counter_panics err :
      w_resource_New w resource_attrs = None ->
      w_otlptracegrpc_New w (dial_config w) = NewOk ->
      w_otlpmetricgrpc_New w (dial_config w) = NewOk ->
      w_pusher_Start w = None ->
      w_NewInt64Counter w = Some err ->
      Startup w (Exited 2) (ev_started w ++ [EPusherStop])
  | Startup_observer_panics err :
      w_resource_New w resource_attrs = None ->
      w_otlptracegrpc_New w (dial_config w) = NewOk ->
      w_otlpmetricgrpc_New w (dial_config w) = NewOk ->
      w_pusher_Start w = None ->
      w_NewInt64Counter w = None ->
      w_NewInt64CounterObserver w = Some err ->
      Startup w (Exited 2) (ev_counter w ++ [EPusherStop])
  | Startup_listen_err err :
      w_resource_New w resource_attrs = None ->
      w_otlptracegrpc_New w (dial_config w) = NewOk ->
      w_otlpmetricgrpc_New w (dial_config w) = NewOk ->
      w_pusher_Start w = None ->
      w_NewInt64Counter w = None ->
      w_NewInt64CounterObserver w = None ->
      w_ListenAndServe w ":8888" = ListenErr err ->
      Startup w (Exited 0) (ev_listen w ++ [EPusherStop])
  | Startup_serves :
      w_resource_New w resource_attrs = None ->
      w_otlptracegrpc_New w (dial_config w) = NewOk ->
      w_otlpmetricgrpc_New w (dial_config w) = NewOk ->
      w_pusher_Start w = None ->
      w_NewInt64Counter w = None ->
      w_NewInt64CounterObserver w = None ->
      w_ListenAndServe w ":8888" = ListenServes ->
      Startup w (Running BlockServing) (ev_listen w).

(** The resource [main] shares between the two pipelines. *)
Definition res0urce : gmap string string := list_to_map resource_attrs.

(** What [main] has installed by the time it serves. *)
Definition booted_globals (w : World) : Globals :=
  mkGlobals
    (Some (mkTracerProvider AlwaysSample res0urce (dial_config w)))
    [Baggage; TraceContext]
    (Some (mkController NewWithExactDistribution (dial_config w) res0urce
                        (dial_config w) (5 * time_Second)))
    (Some "io.opentelemetry.traces.hello")
    (Some "io.opentelemetry.metrics.hello")
    (Some (mkBound numberOfExecName [(numberOfExecName, numberOfExecDesc)]))
    [mkInstrument counter_descriptor None;
     mkInstrument heap_descriptor (Some heapMemoryCallback)].

(** The state of the process when [http.ListenAndServe] starts serving. *)
Definition serving_state (w : World) : State :=
  mkState (ev_listen w) [DeferPusherStop] (booted_globals w) (mkSdk 0 0 ∅ [] []).

(** A world in which every collaborator answers: an endpoint is set, the
    receivers are reachable, the port is free, the clock ticks once a
    reading. *)
Definition demo_world : World :=
  mkWorld {[ "EXPORTER_ENDPOINT" := "collector:4317" ]}
          (fun _ => None) (fun _ => NewOk) (fun _ => NewOk) None None None
          (fun _ => ListenServes) (fun n => Z.of_nat n) (fun _ => mkMemStats 4096).

Definition demo_request : Request := mkRequest "GET" "/hello" context_Background.

(** The bytes [{"Message":"Hello World"}]. *)
Definition hello_world_json : string :=
  "{" +:+ String Json.dquote "Message" +:+ String Json.dquote ":"
      +:+ String Json.dquote "Hello World" +:+ String Json.dquote "}".








(** The route's span, as the middleware leaves it. *)
Definition root_span (w : World) (s : Sdk) (req : Request) : Span :=
  mkSpan "/hello" (next_id s) (ctx_span (req_ctx req))
         (w_time_Now w (reads s)) (Some (w_time_Now w (5 + reads s))).

(** The request as the middleware hands it on, carrying the route's span. *)
Definition inside (s : Sdk) (req : Request) : Request :=
  mkRequest (req_method req) (req_path req) (mkContext (Some (next_id s))).

(** The SDK once the route's span has been started. *)
Definition started (s : Sdk) : Sdk :=
  mkSdk (S (reads s)) (S (next_id s)) (live s) (finished s) (measurements s).

(** The requests of a list that the router hands to [hello]. *)
Definition hello_count (reqs : list Request) : nat :=
  length (List.filter (fun r => String.eqb (req_path r) "/hello") reqs).

(** The instrument and delta of an [Add], for an event that is one. *)
Definition add_of (e : Event) : option (string * Z) :=
  match e with
  | EAdd instrument delta => Some (instrument, delta)
  | _ => None
  end.

(** A failure that is reported to [main] as an error: the resource cannot
    be created, or an exporter's constructor or the controller's [Start]
    returns an error when [main] gets to it.  (A dial that never returns
    reports nothing: see [dial_blocks].) *)
Definition startup_failure (w : World) : Prop :=
  is_Some (w_resource_New w resource_attrs)
  \/ (exists err, w_otlptracegrpc_New w (dial_config w) = NewErr err)
  \/ (w_otlptracegrpc_New w (dial_config w) = NewOk /\
      exists err, w_otlpmetricgrpc_New w (dial_config w) = NewErr err)
  \/ (w_otlptracegrpc_New w (dial_config w) = NewOk /\
      w_otlpmetricgrpc_New w (dial_config w) = NewOk /\
      is_Some (w_pusher_Start w)).

(** A world in which the metric controller cannot be started. *)
Definition failing_world : World :=
  mkWorld {[ "EXPORTER_ENDPOINT" := "collector:4317" ]}
          (fun _ => None) (fun _ => NewOk) (fun _ => NewOk)
          (Some "controller already started") None None
          (fun _ => ListenServes) (fun n => Z.of_nat n) (fun _ => mkMemStats 4096).

(** A world whose environment does not hold EXPORTER_ENDPOINT, and where
    dialling the empty address never succeeds. *)
Definition unset_world : World :=
  mkWorld ∅ (fun _ => None)
          (fun cfg => if String.eqb (cfg_endpoint cfg) "" then NewBlocks else NewOk)
          (fun cfg => if String.eqb (cfg_endpoint cfg) "" then NewBlocks else NewOk)
          None None None
          (fun _ => ListenServes) (fun n => Z.of_nat n) (fun _ => mkMemStats 4096).

(** A world in which the port cannot be bound: [http.ListenAndServe]
    returns and so does [main]. *)
Definition port_taken_world : World :=
  mkWorld {[ "EXPORTER_ENDPOINT" := "collector:4317" ]}
          (fun _ => None) (fun _ => NewOk) (fun _ => NewOk) None None None
          (fun _ => ListenErr "listen tcp :8888: bind: address already in use")
          (fun n => Z.of_nat n) (fun _ => mkMemStats 4096).

(** The state in which that process exits. *)
Definition port_taken_state : State :=
  mkState (ev_listen port_taken_world ++ [EPusherStop]) []
          (booted_globals port_taken_world) (mkSdk 0 0 ∅ [] []).

(** The record of the heap-memory instrument in a collection. *)
Definition heap_record (w : World) (n : nat) (st : State) : option MetricRecord :=
  head (List.filter
          (fun r => String.eqb (d_name (mr_descriptor r)) heapMemoryName)
          (collect w n st)).

(** ** Notions of the further properties *)

(** [uint64(x)] for an integer operand. *)
Definition to_uint64 (x : Z) : Z := x mod 2 ^ 64.

(** A failure of [metric.Must] when [main] gets to the instruments. *)
Definition instrument_failure (w : World) : Prop :=
  is_Some (w_NewInt64Counter w)
  \/ (w_NewInt64Counter w = None /\ is_Some (w_NewInt64CounterObserver w)).

(** The startup sequence gets past the exporters and the controller. *)
Definition pipelines_start (w : World) : Prop :=
  w_resource_New w resource_attrs = None /\
  w_otlptracegrpc_New w (dial_config w) = NewOk /\
  w_otlpmetricgrpc_New w (dial_config w) = NewOk /\
  w_pusher_Start w = None.

(** A dial of an exporter that never returns, when [main] gets to it. *)
Definition dial_blocks (w : World) : Prop :=
  w_resource_New w resource_attrs = None /\
  (w_otlptracegrpc_New w (dial_config w) = NewBlocks
   \/ (w_otlptracegrpc_New w (dial_config w) = NewOk /\
       w_otlpmetricgrpc_New w (dial_config w) = NewBlocks)).

(** A world in which the meter refuses the counter. *)
Definition no_counter_world : World :=
  mkWorld {[ "EXPORTER_ENDPOINT" := "collector:4317" ]}
          (fun _ => None) (fun _ => NewOk) (fun _ => NewOk) None
          (Some "duplicate instrument") None
          (fun _ => ListenServes) (fun n => Z.of_nat n) (fun _ => mkMemStats 4096).

(** A world in which the metric receiver never answers. *)
Definition silent_receiver_world : World :=
  mkWorld {[ "EXPORTER_ENDPOINT" := "collector:4317" ]}
          (fun _ => None) (fun _ => NewOk) (fun _ => NewBlocks) None None None
          (fun _ => ListenServes) (fun n => Z.of_nat n) (fun _ => mkMemStats 4096).


(** A state in which [main] has not run. *)
Definition cold_state : State := initial_state.

(** The metric pipeline fails after the trace pipeline has been set up. *)
Definition metric_pipeline_failure (w : World) : Prop :=
  w_resource_New w resource_attrs = None /\
  w_otlptracegrpc_New w (dial_config w) = NewOk /\
  ((exists err, w_otlpmetricgrpc_New w (dial_config w) = NewErr err)
   \/ (w_otlpmetricgrpc_New w (dial_config w) = NewOk /\ is_Some (w_pusher_Start w))).

(** * Verification *)

(** ** Fixed-width conversion *)

Lemma to_int64_range x : Int.is_int64 (Int.to_int64 x).
Proof.
  unfold Int.is_int64, Int.to_int64, Int.int64_min, Int.int64_max.
  pose proof (Z.mod_pos_bound (x + 2 ^ 63) (2 ^ 64) ltac:(lia)). lia.
Qed.

Lemma to_int64_small x : 0 <= x < 2 ^ 63 -> Int.to_int64 x = x.
Proof.
  intros Hx. unfold Int.to_int64. rewrite Z.mod_small; lia.
Qed.

Lemma to_int64_large x : 2 ^ 63 <= x < 2 ^ 64 -> Int.to_int64 x = x - 2 ^ 64.
Proof.
  intros Hx. unfold Int.to_int64.
  replace (x + 2 ^ 63) with ((x - 2 ^ 63) + 1 * 2 ^ 64) by lia.
  rewrite Z.mod_add by lia. rewrite Z.mod_small; lia.
Qed.

(** ** Running the monad *)

Lemma bind_Ok {A B} (m : Go A) (f : A -> Go B) w st a st' :
  m w st = (Ok a, st') -> (m ≫= f) w st = f a w st'.
Proof. intros H. unfold mbind, Go_bind. rewrite H. reflexivity. Qed.

Lemma bind_Exit {A B} (m : Go A) (f : A -> Go B) w st c st' :
  m w st = (Exit c, st') -> (m ≫= f) w st = (Exit c, st').
Proof. intros H. unfold mbind, Go_bind. rewrite H. reflexivity. Qed.

Lemma bind_Panic {A B} (m : Go A) (f : A -> Go B) w st msg st' :
  m w st = (Panic msg, st') -> (m ≫= f) w st = (Panic msg, st').
Proof. intros H. unfold mbind, Go_bind. rewrite H. reflexivity. Qed.

Lemma bind_Blocked {A B} (m : Go A) (f : A -> Go B) w st why st' :
  m w st = (Blocked why, st') -> (m ≫= f) w st = (Blocked why, st').
Proof. intros H. unfold mbind, Go_bind. rewrite H. reflexivity. Qed.



Lemma span_End_ended w st id :
  live (sdk st) !! id = None -> span_End id w st = (Ok tt, st).
Proof.
  intros H. unfold span_End, mbind, Go_bind, get_globals, get_world, get_sdk.
  rewrite H. reflexivity.
Qed.

Lemma numberOfExecutions_Add_run w st ctx delta b :
  numberOfExecutions (globals st) = Some b ->
  0 <= delta ->
  numberOfExecutions_Add ctx delta w st =
    (Ok tt,
     with_sdk
       (mkSdk (reads (sdk st)) (next_id (sdk st)) (live (sdk st)) (finished (sdk st))
          (measurements (sdk st) ++ [mkMeasurement (b_instrument b) (b_attrs b) ctx delta]))
       (emitted [EAdd (b_instrument b) delta] st)).
Proof.
  intros Hb Hd. unfold numberOfExecutions_Add, mbind, Go_bind, get_globals.
  rewrite Hb. cbn. destruct (Z.ltb_spec delta 0); [lia | reflexivity].
Qed.


Ltac run_go :=
  cbv beta iota zeta delta
    [hello buildResponse tracer_Start span_End numberOfExecutions_Add isValid
     log_Print log_Fatalf os_Exit panic block defer
     modify_globals get_world get_globals get_sdk set_globals set_sdk emit
     mbind mret Go_bind Go_ret emitted with_sdk end_span
     trace defers globals sdk reads next_id live finished measurements
     g_tracerProvider g_propagator g_meterProvider tracer meter
     numberOfExecutions g_instruments
     span_name span_id parent_id start_time end_time].

Lemma hello_run w st writer req b :
  is_Some (tracer (globals st)) ->
  numberOfExecutions (globals st) = Some b ->
  hello writer req w st =
    (Ok (built writer),
     with_sdk (hello_sdk w (globals st) req b (sdk st))
              (emitted (hello_events (sdk st) b) st)).
Proof.
  destruct st as [tr df [tp pr mp t me c ins] [r n lv fin ms]].
  intros [t' Ht] Hb. cbn [globals tracer numberOfExecutions] in Ht, Hb. subst t c.
  unfold hello_sdk, hello_events, buildResponse_span, mySpan_span, built, response_body.
  run_go.
  rewrite lookup_insert_eq. run_go.
  rewrite lookup_insert_eq. run_go.
  rewrite !delete_insert_eq.
  change (1 <? 0) with false. cbv beta iota.
  destruct (sampled _); repeat (rewrite <- app_assoc; cbn [app]); reflexivity.
Qed.

(** ** The startup sequence *)

Ltac unfold_main :=
  cbv beta iota zeta delta
    [run_main main unwind run_deferred initial_state no_globals
     os_Getenv resource_New otlptracegrpc_New otlpmetricgrpc_New
     otel_SetTracerProvider otel_SetTextMapPropagator pusher_Start
     global_SetMeterProvider set_tracer set_meter set_numberOfExecutions
     register Must_NewInt64Counter Must_NewInt64CounterObserver
     http_ListenAndServe log_Fatalf log_Print os_Exit panic block defer
     modify_globals get_world get_globals get_sdk set_globals set_sdk emit
     mbind mret Go_bind Go_ret exporter_options exporter_config apply_option
     default_exporter_config fold_left
     cfg_insecure cfg_endpoint cfg_block
     trace defers globals sdk g_tracerProvider g_propagator g_meterProvider
     tracer meter numberOfExecutions g_instruments i_descriptor app];
  fold resource_attrs; fold (endpoint_of ltac:(assumption));
  fold (dial_config ltac:(assumption)).

Ltac oracle t H := destruct t eqn:H; cbv beta iota.

Lemma run_main_Startup w : Startup w (fst (run_main w)) (trace (snd (run_main w))).
Proof.
  unfold_main.
  oracle (w_resource_New w resource_attrs) Hres.
  { eapply Startup_resource; eassumption. }
  oracle (w_otlptracegrpc_New w (dial_config w)) Htrace.
  2: { eapply Startup_trace_err; eassumption. }
  2: { eapply Startup_trace_blocks; eassumption. }
  oracle (w_otlpmetricgrpc_New w (dial_config w)) Hmetric.
  2: { eapply Startup_metric_err; eassumption. }
  2: { eapply Startup_metric_blocks; eassumption. }
  oracle (w_pusher_Start w) Hstart.
  { eapply Startup_controller; eassumption. }
  oracle (w_NewInt64Counter w) Hcounter.
  { eapply Startup_counter_panics; eassumption. }
  oracle (w_NewInt64CounterObserver w) Hobserver.
  { eapply Startup_observer_panics; eassumption. }
  oracle (w_ListenAndServe w ":8888") Hlisten.
  { eapply Startup_listen_err; eassumption. }
  eapply Startup_serves; eassumption.
Qed.

Lemma main_serving w st :
  run_main w = (Running BlockServing, st) -> st = serving_state w.
Proof.
  unfold_main.
  oracle (w_resource_New w resource_attrs) Hres; [discriminate |].
  oracle (w_otlptracegrpc_New w (dial_config w)) Htrace; [| discriminate ..].
  oracle (w_otlpmetricgrpc_New w (dial_config w)) Hmetric; [| discriminate ..].
  oracle (w_pusher_Start w) Hstart; [discriminate |].
  oracle (w_NewInt64Counter w) Hcounter; [discriminate |].
  oracle (w_NewInt64CounterObserver w) Hobserver; [discriminate |].
  oracle (w_ListenAndServe w ":8888") Hlisten; [discriminate |].
  intros H. inversion H. reflexivity.
Qed.

Lemma serving_state_Ready w : Ready (serving_state w).
Proof. split; eexists; reflexivity. Qed.

(** ** A concrete world, for evaluating the program *)

Lemma demo_world_serves :
  run_main demo_world = (Running BlockServing, serving_state demo_world).
Proof. reflexivity. Qed.

(** ** The response of the handler *)


Lemma built_fresh_status : Http.status (built Http.fresh) = 200.
Proof. vm_compute. reflexivity. Qed.

Lemma built_fresh_body : Http.body (built Http.fresh) = hello_world_json.
Proof. vm_compute. reflexivity. Qed.

Lemma built_fresh_handlerHeader :
  Http.Header_Values (Http.handlerHeader (built Http.fresh)) "Content-Type"
  = ["application/json"].
Proof. vm_compute. reflexivity. Qed.

Lemma built_fresh_sentHeader : Http.sentHeader (built Http.fresh) = ∅.
Proof. vm_compute. reflexivity. Qed.


(** C1 (the code departs from the claim).  For every request the handler
    answers, from a state in which [main] has set the package variables, the
    response has status 200 and the body is exactly the JSON object with the
    message Hello World; but [WriteHeader] is called before the Content-Type
    is added, so the header that is sent carries no Content-Type at all: the
    value application/json stays in the handler's map only. *)
Theorem hello_response_without_content_type w st req :
  Ready st ->
  exists writer st',
    hello Http.fresh req w st = (Ok writer, st') /\
    Http.status writer = 200 /\
    Http.body writer = hello_world_json /\
    Http.Header_Values (Http.handlerHeader writer) "Content-Type" = ["application/json"] /\
    Http.sentHeader writer !! "Content-Type" = None.
Proof.
  intros [Ht [b Hb]].
  exists (built Http.fresh). eexists. split.
  - apply (hello_run _ _ _ _ b); assumption.
  - rewrite built_fresh_status, built_fresh_body, built_fresh_handlerHeader,
      built_fresh_sentHeader.
    repeat split.
Qed.

Lemma hello_response_without_content_type_demo :
  Ready (serving_state demo_world) /\
  exists writer st',
    hello Http.fresh demo_request demo_world (serving_state demo_world) = (Ok writer, st') /\
    Http.status writer = 200 /\
    Http.body writer = hello_world_json /\
    Http.Header_Values (Http.handlerHeader writer) "Content-Type" = ["application/json"] /\
    Http.sentHeader writer !! "Content-Type" = None.
Proof.
  split.
  - apply serving_state_Ready.
  - apply (hello_response_without_content_type demo_world (serving_state demo_world)
             demo_request).
    apply serving_state_Ready.
Defined.

(** ** What one execution of the handler leaves behind *)

Lemma hello_Ready w st writer req :
  Ready st ->
  exists b,
    numberOfExecutions (globals st) = Some b /\
    hello writer req w st =
      (Ok (built writer),
       with_sdk (hello_sdk w (globals st) req b (sdk st))
                (emitted (hello_events (sdk st) b) st)).
Proof.
  intros [Ht [b Hb]]. exists b. split; [exact Hb |].
  apply hello_run; assumption.
Qed.

(** Membership of an event in an explicit list, decided by its constructor. *)
Ltac absent H :=
  cbn [app] in H;
  repeat (apply elem_of_cons in H as [H | H]; [discriminate H |]);
  apply elem_of_nil in H; exact H.

(** C10.  [isValid] answers true for every response; so every execution of
    the handler prints the line The response is valid, once, between the
    start and the end of the span mySpan. *)
Theorem isValid_always_and_logged :
  (forall r : Response, isValid r = true) /\
  (forall w st writer req,
     Ready st ->
     exists writer' st' id pre post,
       hello writer req w st = (Ok writer', st') /\
       trace st' =
         trace st ++ pre
           ++ [ESpanStart "mySpan" id; ELog "The response is valid"; ESpanEnd id]
           ++ post /\
       forall msg, ELog msg ∉ pre ++ post).
Proof.
  split; [reflexivity |].
  intros w st writer req HR.
  destruct (hello_Ready w st writer req HR) as (b & Hb & Hrun).
  exists (built writer). eexists.
  exists (S (next_id (sdk st))).
  exists [ESpanStart "buildResponse" (next_id (sdk st));
          EWriteHeader Http.StatusOK;
          EHeaderAdd "Content-Type" "application/json";
          EWrite response_body;
          ESpanEnd (next_id (sdk st))].
  exists [EAdd (b_instrument b) 1].
  split; [exact Hrun |]. split; [reflexivity |].
  intros msg H. absent H.
Qed.

Lemma isValid_always_and_logged_demo :
  Ready (serving_state demo_world) /\
  exists writer' st' id pre post,
    hello Http.fresh demo_request demo_world (serving_state demo_world) = (Ok writer', st') /\
    trace st' =
      trace (serving_state demo_world) ++ pre
        ++ [ESpanStart "mySpan" id; ELog "The response is valid"; ESpanEnd id]
        ++ post /\
    forall msg, ELog msg ∉ pre ++ post.
Proof.
  split; [apply serving_state_Ready |].
  apply (proj2 isValid_always_and_logged). apply serving_state_Ready.
Defined.

(** ** Requests through the router *)

Ltac run_serve :=
  cbv beta iota zeta delta
    [serve_request hello buildResponse tracer_Start span_End numberOfExecutions_Add
     isValid log_Print modify_globals get_world get_globals get_sdk set_globals
     set_sdk emit mbind mret Go_bind Go_ret emitted with_sdk end_span
     trace defers globals sdk reads next_id live finished measurements
     g_tracerProvider g_propagator g_meterProvider tracer meter
     numberOfExecutions g_instruments
     span_name span_id parent_id start_time end_time
     req_method req_path req_ctx ctx_span].

Lemma serve_request_hello w st req b :
  is_Some (tracer (globals st)) ->
  numberOfExecutions (globals st) = Some b ->
  req_path req = "/hello" ->
  exists st',
    serve_request req w st = (Ok (built (Http.for_method (req_method req))), st') /\
    globals st' = globals st /\
    defers st' = defers st /\
    measurements (sdk st') =
      measurements (sdk st) ++
        [mkMeasurement (b_instrument b) (b_attrs b)
           (mkContext (Some (S (next_id (sdk st))))) 1] /\
    finished (sdk st') =
      (if sampled (globals st)
       then finished (sdk st) ++
              [buildResponse_span w (started (sdk st)) (inside (sdk st) req);
               mySpan_span w (started (sdk st));
               root_span w (sdk st) req]
       else finished (sdk st)).
Proof.
  destruct st as [tr df [tp pr mp t me c ins] [r n lv fin ms]].
  destruct req as [m p ctx].
  intros [t' Ht] Hb Hp. cbn [globals tracer numberOfExecutions req_path] in Ht, Hb, Hp.
  subst t c p.
  unfold buildResponse_span, mySpan_span, root_span, started, inside, built, response_body.
  run_serve.
  change (String.eqb "/hello" "/hello") with true. run_serve.
  rewrite lookup_insert_eq. run_serve.
  rewrite lookup_insert_eq. run_serve.
  change (1 <? 0) with false. cbv beta iota.
  rewrite !delete_insert_eq.
  rewrite !lookup_delete_ne by lia. rewrite lookup_insert_eq. run_serve.
  eexists. split; [reflexivity |]. cbn [globals defers sdk measurements finished].
  repeat split.
  destruct (sampled _); repeat (rewrite <- app_assoc; cbn [app]); reflexivity.
Qed.

Lemma serve_request_other w st req :
  req_path req <> "/hello" ->
  exists writer, serve_request req w st = (Ok writer, st).
Proof.
  intros Hp. unfold serve_request.
  destruct (String.eqb_spec (req_path req) "/hello") as [E | _]; [contradiction |].
  eexists. reflexivity.
Qed.

Lemma accumulated_snoc name s s' m :
  measurements s' = measurements s ++ [m] ->
  accumulated name s' =
    accumulated name s + (if String.eqb (m_instrument m) name then m_delta m else 0).
Proof.
  unfold accumulated. intros ->.
  induction (measurements s) as [| m' ms IH]; cbn [app foldr].
  - destruct (String.eqb _ _); lia.
  - rewrite IH. destruct (String.eqb (m_instrument m') name); lia.
Qed.

Lemma hello_count_all reqs :
  Forall (fun r => req_path r = "/hello") reqs -> hello_count reqs = length reqs.
Proof.
  unfold hello_count. induction 1 as [| r reqs Hr _ IH]; [reflexivity |].
  cbn [List.filter]. rewrite Hr. change (String.eqb "/hello" "/hello") with true.
  cbn [length]. rewrite IH. reflexivity.
Qed.

Lemma serve_run w reqs :
  forall st b,
    is_Some (tracer (globals st)) ->
    numberOfExecutions (globals st) = Some b ->
    exists writers st',
      serve reqs w st = (Ok writers, st') /\
      globals st' = globals st /\
      defers st' = defers st /\
      length writers = length reqs /\
      accumulated (b_instrument b) (sdk st') =
        accumulated (b_instrument b) (sdk st) + Z.of_nat (hello_count reqs).
Proof.
  induction reqs as [| req reqs IH]; intros st b Ht Hb.
  - exists [], st. repeat split. unfold hello_count. cbn. lia.
  - cbn [serve].
    destruct (String.eqb_spec (req_path req) "/hello") as [E | NE].
    + destruct (serve_request_hello w st req b Ht Hb E)
        as (st1 & Hrun & Hg & Hd & Hm & _).
      destruct (IH st1 b) as (writers & st' & Hrun' & Hg' & Hd' & Hl & Hacc).
      { rewrite Hg. exact Ht. }
      { rewrite Hg. exact Hb. }
      exists (built (Http.for_method (req_method req)) :: writers), st'.
      split.
      { erewrite bind_Ok by exact Hrun. erewrite bind_Ok by exact Hrun'. reflexivity. }
      split; [congruence |]. split; [congruence |].
      split; [cbn [length]; congruence |].
      rewrite Hacc. rewrite (accumulated_snoc _ _ _ _ Hm).
      cbn [m_instrument m_delta]. rewrite String.eqb_refl.
      unfold hello_count. cbn [List.filter]. rewrite E.
      change (String.eqb "/hello" "/hello") with true. cbn [length]. lia.
    + destruct (serve_request_other w st req NE) as (writer & Hrun).
      destruct (IH st b Ht Hb) as (writers & st' & Hrun' & Hg' & Hd' & Hl & Hacc).
      exists (writer :: writers), st'.
      split.
      { erewrite bind_Ok by exact Hrun. erewrite bind_Ok by exact Hrun'. reflexivity. }
      split; [congruence |]. split; [congruence |].
      split; [cbn [length]; congruence |].
      rewrite Hacc. unfold hello_count. cbn [List.filter].
      destruct (String.eqb_spec (req_path req) "/hello"); [contradiction | reflexivity].
Qed.

(** ** The per-request state machine *)





(** ** Spans of a request *)

(** C2, as stated, fails on the program: in the request below the route's
    span has id 0, the span buildResponse is its child, and the span mySpan
    is the child of buildResponse (id 1), not of the route's span. *)
Lemma mySpan_is_not_a_child_of_the_route :
  run_main demo_world = (Running BlockServing, serving_state demo_world) /\
  finished (sdk (snd (serve_request demo_request demo_world (serving_state demo_world))))
  = [mkSpan "buildResponse" 1 (Some 0%nat) 1 (Some 2);
     mkSpan "mySpan" 2 (Some 1%nat) 3 (Some 4);
     mkSpan "/hello" 0 None 0 (Some 5)]
  /\ ~ (forall sp,
          sp ∈ finished (sdk (snd (serve_request demo_request demo_world
                                     (serving_state demo_world)))) ->
          span_name sp <> "/hello" ->
          parent_id sp = Some 0%nat).
Proof.
  assert (E : finished (sdk (snd (serve_request demo_request demo_world
                                    (serving_state demo_world))))
              = [mkSpan "buildResponse" 1 (Some 0%nat) 1 (Some 2);
                 mkSpan "mySpan" 2 (Some 1%nat) 3 (Some 4);
                 mkSpan "/hello" 0 None 0 (Some 5)]).
  { vm_compute. reflexivity. }
  split; [exact demo_world_serves |].
  split; [exact E |].
  rewrite E. intros H.
  specialize (H (mkSpan "mySpan" 2 (Some 1%nat) 3 (Some 4))).
  assert (C : Some 1%nat = Some 0%nat); [| discriminate C].
  apply H.
  - apply elem_of_cons. right. apply elem_of_cons. left. reflexivity.
  - discriminate.
Qed.

(** C2, amended.  For a request to /hello, exactly two spans are produced
    under the route's span, buildResponse and then mySpan.  buildResponse is
    the child of the route's span; mySpan is the child of buildResponse,
    because the handler keeps the context the first [Start] returned, so it
    is nested under the route's span through buildResponse.  With a clock
    that does not run backwards, each span ends no earlier than it starts,
    and mySpan starts no earlier than buildResponse ends: the two do not
    overlap. *)
Theorem hello_spans_under_route w st req :
  Ready st ->
  sampled (globals st) = true ->
  req_path req = "/hello" ->
  (forall i j : nat, (i <= j)%nat -> w_time_Now w i <= w_time_Now w j) ->
  exists writer st' root b1 b2 e1 e2,
    serve_request req w st = (Ok writer, st') /\
    finished (sdk st') = finished (sdk st) ++ [b1; b2; root] /\
    span_name root = "/hello" /\
    span_name b1 = "buildResponse" /\
    span_name b2 = "mySpan" /\
    parent_id b1 = Some (span_id root) /\
    parent_id b2 = Some (span_id b1) /\
    end_time b1 = Some e1 /\
    end_time b2 = Some e2 /\
    start_time b1 <= e1 /\
    e1 <= start_time b2 /\
    start_time b2 <= e2.
Proof.
  intros [Ht [b Hb]] Hs Hp Hclock.
  destruct (serve_request_hello w st req b Ht Hb Hp) as (st' & Hrun & _ & _ & _ & Hf).
  rewrite Hs in Hf.
  exists (built (Http.for_method (req_method req))), st'.
  exists (root_span w (sdk st) req).
  exists (buildResponse_span w (started (sdk st)) (inside (sdk st) req)).
  exists (mySpan_span w (started (sdk st))).
  do 2 eexists.
  split; [exact Hrun |]. split; [exact Hf |].
  cbn [root_span buildResponse_span mySpan_span started inside
       span_name span_id parent_id start_time end_time reads next_id
       req_ctx ctx_span].
  repeat (split; [reflexivity |]).
  repeat split; apply Hclock; lia.
Qed.

Lemma hello_spans_under_route_demo :
  Ready (serving_state demo_world) /\
  sampled (globals (serving_state demo_world)) = true /\
  req_path demo_request = "/hello" /\
  (forall i j : nat, (i <= j)%nat -> w_time_Now demo_world i <= w_time_Now demo_world j) /\
  exists writer st' root b1 b2 e1 e2,
    serve_request demo_request demo_world (serving_state demo_world) = (Ok writer, st') /\
    finished (sdk st') = finished (sdk (serving_state demo_world)) ++ [b1; b2; root] /\
    span_name root = "/hello" /\
    span_name b1 = "buildResponse" /\
    span_name b2 = "mySpan" /\
    parent_id b1 = Some (span_id root) /\
    parent_id b2 = Some (span_id b1) /\
    end_time b1 = Some e1 /\
    end_time b2 = Some e2 /\
    start_time b1 <= e1 /\
    e1 <= start_time b2 /\
    start_time b2 <= e2.
Proof.
  assert (Hclock : forall i j : nat,
             (i <= j)%nat -> w_time_Now demo_world i <= w_time_Now demo_world j).
  { intros i j Hij. cbn [demo_world w_time_Now]. lia. }
  split; [apply serving_state_Ready |]. split; [reflexivity |].
  split; [reflexivity |]. split; [exact Hclock |].
  exact (hello_spans_under_route demo_world (serving_state demo_world) demo_request
           (serving_state_Ready demo_world) eq_refl eq_refl Hclock).
Defined.

(** ** The manual counter *)

(** C3.  Once [main] serves, any number of requests to /hello is answered,
    and the value the counter custom.metric.number.of.exec has accumulated is
    the number of these requests; in the state they leave, one more
    execution of the handler makes exactly one [Add], of 1, on that counter;
    the delta is not negative, so the SDK records it, and the accumulated
    value grows by 1. *)
Theorem counter_counts_executions w st0 reqs :
  run_main w = (Running BlockServing, st0) ->
  Forall (fun r => req_path r = "/hello") reqs ->
  exists writers st,
    serve reqs w st0 = (Ok writers, st) /\
    length writers = length reqs /\
    accumulated numberOfExecName (sdk st) = Z.of_nat (length reqs) /\
    forall writer req,
      exists writer' st' evs,
        hello writer req w st = (Ok writer', st') /\
        trace st' = trace st ++ evs /\
        omap add_of evs = [(numberOfExecName, 1)] /\
        (exists m,
           measurements (sdk st') = measurements (sdk st) ++ [m] /\
           m_instrument m = numberOfExecName /\
           m_delta m = 1) /\
        accumulated numberOfExecName (sdk st') = accumulated numberOfExecName (sdk st) + 1.
Proof.
  intros Hmain Hall. apply main_serving in Hmain. subst st0.
  pose (b := mkBound numberOfExecName [(numberOfExecName, numberOfExecDesc)]).
  destruct (serve_run w reqs (serving_state w) b) as (writers & st & Hrun & Hg & _ & Hl & Hacc).
  { eexists. reflexivity. }
  { reflexivity. }
  exists writers, st.
  split; [exact Hrun |]. split; [exact Hl |].
  split.
  { cbn [b b_instrument] in Hacc. rewrite Hacc.
    rewrite (hello_count_all _ Hall). unfold accumulated. cbn. lia. }
  intros writer req.
  assert (Ht : is_Some (tracer (globals st))) by (rewrite Hg; eexists; reflexivity).
  assert (Hb : numberOfExecutions (globals st) = Some b) by (rewrite Hg; reflexivity).
  exists (built writer). eexists. exists (hello_events (sdk st) b).
  split; [apply (hello_run _ _ _ _ b); assumption |].
  split; [reflexivity |]. split; [reflexivity |].
  split; [eexists; split; [reflexivity | split; reflexivity] |].
  rewrite (accumulated_snoc numberOfExecName (sdk st) _
             (mkMeasurement (b_instrument b) (b_attrs b)
                (mkContext (Some (next_id (sdk st)))) 1)).
  - cbn [m_instrument m_delta b b_instrument]. rewrite String.eqb_refl. reflexivity.
  - reflexivity.
Qed.

Lemma counter_counts_executions_demo :
  run_main demo_world = (Running BlockServing, serving_state demo_world) /\
  Forall (fun r => req_path r = "/hello") [demo_request; demo_request; demo_request] /\
  exists writers st,
    serve [demo_request; demo_request; demo_request] demo_world (serving_state demo_world)
      = (Ok writers, st) /\
    length writers = 3%nat /\
    accumulated numberOfExecName (sdk st) = 3 /\
    forall writer req,
      exists writer' st' evs,
        hello writer req demo_world st = (Ok writer', st') /\
        trace st' = trace st ++ evs /\
        omap add_of evs = [(numberOfExecName, 1)] /\
        (exists m,
           measurements (sdk st') = measurements (sdk st) ++ [m] /\
           m_instrument m = numberOfExecName /\
           m_delta m = 1) /\
        accumulated numberOfExecName (sdk st') = accumulated numberOfExecName (sdk st) + 1.
Proof.
  assert (Hall : Forall (fun r => req_path r = "/hello")
                   [demo_request; demo_request; demo_request]).
  { repeat constructor. }
  split; [exact demo_world_serves |].
  split; [exact Hall |].
  exact (counter_counts_executions demo_world (serving_state demo_world)
           [demo_request; demo_request; demo_request] demo_world_serves Hall).
Defined.

(** ** Startup failures *)

Tactic Notation "startup_cases" constr(w) "as" ident(o) ident(st) ident(HS) :=
  pose proof (run_main_Startup w) as HS;
  destruct (run_main w) as [o st]; cbn [fst snd] in HS;
  inversion HS; subst.

Ltac expand_events :=
  unfold ev_listen, ev_counter, ev_started, ev_metric, ev_trace, ev_env, fatal in *;
  cbn [app] in *.

Lemma blocked_dial_run w :
  dial_blocks w ->
  exists why st,
    run_main w = (Running why, st) /\
    why <> BlockServing /\
    (forall msg, ELog msg ∉ trace st) /\
    (forall addr, EListenAndServe addr ∉ trace st).
Proof.
  intros (H1 & [H2 | [H2 H3]]).
  - unfold_main. rewrite H1. cbv beta iota. rewrite H2. cbv beta iota.
    do 2 eexists. split; [reflexivity |]. split; [discriminate |].
    cbn [trace].
    split; [intros msg Hin; absent Hin | intros addr Hin; absent Hin].
  - unfold_main. rewrite H1. cbv beta iota. rewrite H2. cbv beta iota.
    rewrite H3. cbv beta iota.
    do 2 eexists. split; [reflexivity |]. split; [discriminate |].
    cbn [trace].
    split; [intros msg Hin; absent Hin | intros addr Hin; absent Hin].
Qed.

(** C4, as stated, fails on the program: a receiver that cannot be reached
    is a startup failure that ends nothing.  The exporters dial with
    [grpc.WithBlock] under [context.Background], so when the metric receiver
    never answers the constructor never returns: the exporter is not
    created, and yet the process prints no fatal line and does not exit. *)
Lemma unreachable_receiver_never_exits :
  w_otlpmetricgrpc_New silent_receiver_world (dial_config silent_receiver_world)
    = NewBlocks /\
  exists why st,
    run_main silent_receiver_world = (Running why, st) /\
    (forall msg, ELog msg ∉ trace st) /\
    (forall code, fst (run_main silent_receiver_world) <> Exited code).
Proof.
  split; [reflexivity |].
  assert (Hb : dial_blocks silent_receiver_world).
  { split; [reflexivity |]. right. split; reflexivity. }
  destruct (blocked_dial_run silent_receiver_world Hb) as (why & st & Hrun & _ & Hlog & _).
  exists why, st. split; [exact Hrun |]. split; [exact Hlog |].
  intros code. rewrite Hrun. discriminate.
Qed.

(** C4, amended.  When a step of the startup sequence returns an error
    (resource creation, the construction of an exporter, the start of the
    controller), the process prints a fatal line and exits with code 1, and
    [http.ListenAndServe] has not been called: the port is never bound.
    When the blocking dial of an exporter never returns, the process does
    not exit and prints nothing; it stays in the dial, and the port is never
    bound either.  When [main] has got to serving, every sequence of
    requests is answered and none of them ends the process. *)
Theorem startup_failure_fatal_or_blocked w :
  (startup_failure w ->
   exists st msg,
     run_main w = (Exited 1, st) /\
     1 <> 0 /\
     last (trace st) = Some (ELog msg) /\
     forall addr, EListenAndServe addr ∉ trace st) /\
  (dial_blocks w ->
   exists why st,
     run_main w = (Running why, st) /\
     why <> BlockServing /\
     (forall msg, ELog msg ∉ trace st) /\
     (forall addr, EListenAndServe addr ∉ trace st)) /\
  (forall st0,
     run_main w = (Running BlockServing, st0) ->
     forall reqs, exists writers st, serve reqs w st0 = (Ok writers, st)).
Proof.
  split; [| split].
  - intros Hf. startup_cases w as o st HS.
    all: destruct Hf as [[e He] | [[e He] | [[H1' [e He]] | (H1' & H2' & [e He])]]];
      try congruence.
    all: exists st; eexists; (split; [reflexivity |]); (split; [lia |]);
      match goal with H : _ = trace _ |- _ => rewrite <- H end;
      expand_events;
      (split; [reflexivity | intros addr Hin; absent Hin]).
  - apply blocked_dial_run.
  - intros st0 Hmain reqs. apply main_serving in Hmain. subst st0.
    destruct (serve_run w reqs (serving_state w)
                (mkBound numberOfExecName [(numberOfExecName, numberOfExecDesc)]))
      as (writers & st & Hrun & _).
    { eexists. reflexivity. }
    { reflexivity. }
    exists writers, st. exact Hrun.
Qed.

Lemma startup_failure_fatal_or_blocked_demo :
  (startup_failure failing_world /\
   exists st msg,
     run_main failing_world = (Exited 1, st) /\
     1 <> 0 /\
     last (trace st) = Some (ELog msg) /\
     forall addr, EListenAndServe addr ∉ trace st) /\
  (dial_blocks silent_receiver_world /\
   exists why st,
     run_main silent_receiver_world = (Running why, st) /\
     why <> BlockServing /\
     (forall msg, ELog msg ∉ trace st) /\
     (forall addr, EListenAndServe addr ∉ trace st)) /\
  (run_main demo_world = (Running BlockServing, serving_state demo_world) /\
   forall reqs, exists writers st,
     serve reqs demo_world (serving_state demo_world) = (Ok writers, st)).
Proof.
  assert (Hf : startup_failure failing_world).
  { right. right. right. repeat split. eexists. reflexivity. }
  assert (Hb : dial_blocks silent_receiver_world).
  { split; [reflexivity |]. right. split; reflexivity. }
  split; [| split].
  - split; [exact Hf |].
    exact (proj1 (startup_failure_fatal_or_blocked failing_world) Hf).
  - split; [exact Hb |].
    exact (proj1 (proj2 (startup_failure_fatal_or_blocked silent_receiver_world)) Hb).
  - split; [exact demo_world_serves |].
    exact (proj2 (proj2 (startup_failure_fatal_or_blocked demo_world))
             (serving_state demo_world) demo_world_serves).
Defined.

(** ** The exporter endpoint *)

(** The options of [main] override the library's default endpoint by what
    the environment holds, the empty string when the variable is not set. *)
Lemma exporter_config_main w :
  exporter_config (exporter_options (endpoint_of w)) = dial_config w.
Proof. reflexivity. Qed.

Ltac exporter_event H :=
  repeat (apply elem_of_cons in H as [H | H];
          [try discriminate H; injection H as ->; repeat split |]);
  try (apply elem_of_nil in H; contradiction).

(** C5.  Both exporters are built with the endpoint read from
    EXPORTER_ENDPOINT, with no default in its place (the empty string when
    the variable is not set), insecurely and with a blocking dial.  When the
    variable is not set and no OTLP receiver can be reached at the empty
    address, startup does not proceed: [main] never serves and never calls
    [http.ListenAndServe]. *)
Theorem endpoint_required_and_insecure w :
  (forall cfg,
     ENewTraceExporter cfg ∈ trace (snd (run_main w)) \/
     ENewMetricExporter cfg ∈ trace (snd (run_main w)) ->
     cfg_insecure cfg = true /\
     cfg_block cfg = true /\
     cfg_endpoint cfg = default "" (environ w !! "EXPORTER_ENDPOINT")) /\
  (forall st,
     run_main w = (Running BlockServing, st) ->
     ENewTraceExporter (dial_config w) ∈ trace st /\
     ENewMetricExporter (dial_config w) ∈ trace st) /\
  (environ w !! "EXPORTER_ENDPOINT" = None ->
   w_otlptracegrpc_New w (mkExporterConfig true "" true) <> NewOk ->
   fst (run_main w) <> Running BlockServing /\
   forall addr, EListenAndServe addr ∉ trace (snd (run_main w))).
Proof.
  split; [| split].
  - intros cfg Hin. startup_cases w as o st HS.
    all: cbn [snd] in Hin;
      match goal with H : _ = trace _ |- _ => rewrite <- H in Hin end;
      expand_events;
      destruct Hin as [Hin | Hin]; exporter_event Hin.
  - intros st Hmain. apply main_serving in Hmain. subst st.
    cbn [serving_state trace]. expand_events.
    split; repeat (first [apply list_elem_of_here | apply list_elem_of_further]).
  - intros Henv Hdial.
    assert (Hcfg : dial_config w = mkExporterConfig true "" true).
    { unfold dial_config, endpoint_of. rewrite Henv. reflexivity. }
    startup_cases w as o st HS.
    all: rewrite ?Hcfg in *; try congruence.
    all: cbn [fst snd]; (split; [discriminate |]).
    all: intros addr Hin;
      match goal with H : _ = trace _ |- _ => rewrite <- H in Hin end;
      expand_events; absent Hin.
Qed.

Lemma endpoint_required_and_insecure_demo :
  (run_main demo_world = (Running BlockServing, serving_state demo_world) /\
   ENewTraceExporter (dial_config demo_world) ∈ trace (serving_state demo_world) /\
   ENewMetricExporter (dial_config demo_world) ∈ trace (serving_state demo_world)) /\
  (environ unset_world !! "EXPORTER_ENDPOINT" = None /\
   w_otlptracegrpc_New unset_world (mkExporterConfig true "" true) <> NewOk /\
   fst (run_main unset_world) <> Running BlockServing /\
   forall addr, EListenAndServe addr ∉ trace (snd (run_main unset_world))).
Proof.
  assert (Henv : environ unset_world !! "EXPORTER_ENDPOINT" = None) by reflexivity.
  assert (Hdial : w_otlptracegrpc_New unset_world (mkExporterConfig true "" true) <> NewOk)
    by discriminate.
  split.
  - split; [exact demo_world_serves |].
    exact (proj1 (proj2 (endpoint_required_and_insecure demo_world))
             (serving_state demo_world) demo_world_serves).
  - split; [exact Henv |]. split; [exact Hdial |].
    exact (proj2 (proj2 (endpoint_required_and_insecure unset_world)) Henv Hdial).
Defined.

(** ** Stopping the metric controller *)

(** C6.  Whenever the process exits after the metric controller has been
    started, the deferred [pusher.Stop(ctx)] has run: it is the last event of
    the process, after the start.  (The calls of [log.Fatalf] all come before
    the start has succeeded; after it the process can only end by a panic of
    [metric.Must] or by the return of [main], and both run deferred calls.) *)
Theorem pusher_Stop_on_every_exit w code st :
  run_main w = (Exited code, st) ->
  EPusherStart true ∈ trace st ->
  exists before,
    trace st = before ++ [EPusherStop] /\
    EPusherStart true ∈ before /\
    EPusherStop ∉ before.
Proof.
  intros Hmain Hin.
  pose proof (run_main_Startup w) as HS. rewrite Hmain in HS. cbn [fst snd] in HS.
  inversion HS; subst.
  all: match goal with H : _ = trace _ |- _ => rewrite <- H in * end.
  all: try (exfalso; expand_events; absent Hin).
  1: exists (ev_started w).
  2: exists (ev_counter w).
  3: exists (ev_listen w).
  all: (split; [reflexivity |]); expand_events.
  all: split; [repeat (first [apply list_elem_of_here | apply list_elem_of_further])
              | intros Hs; absent Hs].
Qed.

Lemma port_taken_world_exits :
  run_main port_taken_world = (Exited 0, port_taken_state).
Proof. reflexivity. Qed.

Lemma pusher_Stop_on_every_exit_demo :
  run_main port_taken_world = (Exited 0, port_taken_state) /\
  EPusherStart true ∈ trace port_taken_state /\
  exists before,
    trace port_taken_state = before ++ [EPusherStop] /\
    EPusherStart true ∈ before /\
    EPusherStop ∉ before.
Proof.
  assert (Hin : EPusherStart true ∈ trace port_taken_state).
  { cbn [port_taken_state trace]. expand_events.
    repeat (first [apply list_elem_of_here | apply list_elem_of_further]). }
  split; [exact port_taken_world_exits |]. split; [exact Hin |].
  exact (pusher_Stop_on_every_exit port_taken_world 0 port_taken_state
           port_taken_world_exits Hin).
Defined.

(** ** What is exported *)

Lemma res0urce_service_name : res0urce !! "service.name" = Some "hello-app".
Proof. vm_compute. reflexivity. Qed.

Lemma res0urce_service_version : res0urce !! "service.version" = Some "1.0".
Proof. vm_compute. reflexivity. Qed.

(** The state after any requests keeps what [main] installed. *)
Lemma served_globals w st0 reqs writers st :
  run_main w = (Running BlockServing, st0) ->
  serve reqs w st0 = (Ok writers, st) ->
  globals st = booted_globals w.
Proof.
  intros Hmain Hrun. apply main_serving in Hmain. subst st0.
  destruct (serve_run w reqs (serving_state w)
              (mkBound numberOfExecName [(numberOfExecName, numberOfExecDesc)]))
    as (writers' & st' & Hrun' & Hg & _).
  { eexists. reflexivity. }
  { reflexivity. }
  rewrite Hrun in Hrun'. injection Hrun' as _ <-. exact Hg.
Qed.

(** C8, as stated, fails on the program: the instrument
    custom.metric.heap.memory is registered by [NewInt64CounterObserver]; its
    kind is the asynchronous counter, and no instrument of the program is a
    gauge. *)
Lemma heap_memory_is_not_a_gauge :
  run_main demo_world = (Running BlockServing, serving_state demo_world) /\
  ((fun i => (d_name (i_descriptor i), d_kind (i_descriptor i)))
     <$> g_instruments (globals (serving_state demo_world)))
  = [("custom.metric.number.of.exec", CounterInstrumentKind);
     ("custom.metric.heap.memory", CounterObserverInstrumentKind)]
  /\ ~ (exists i,
          i ∈ g_instruments (globals (serving_state demo_world)) /\
          d_name (i_descriptor i) = "custom.metric.heap.memory" /\
          d_kind (i_descriptor i) = GaugeObserverInstrumentKind).
Proof.
  split; [exact demo_world_serves |].
  split; [reflexivity |].
  intros (i & Hin & Hname & Hkind).
  cbn [serving_state globals booted_globals g_instruments] in Hin.
  apply elem_of_cons in Hin as [-> | Hin]; [discriminate Hkind |].
  apply elem_of_cons in Hin as [-> | Hin]; [discriminate Hkind |].
  apply elem_of_nil in Hin. exact Hin.
Qed.

(** C8, amended.  Once [main] serves, the two instruments are
    custom.metric.number.of.exec, a monotonic counter, and
    custom.metric.heap.memory, an asynchronous monotonic counter (a counter
    observer, not a gauge); the controller collects every 5 seconds; and
    after any requests every exported span and every record of every
    collection carries service.name=hello-app and service.version=1.0. *)
Theorem telemetry_identity w st0 :
  run_main w = (Running BlockServing, st0) ->
  i_descriptor <$> g_instruments (globals st0) =
    [mkDescriptor "custom.metric.number.of.exec" CounterInstrumentKind
                  "Count the number of executions.";
     mkDescriptor "custom.metric.heap.memory" CounterObserverInstrumentKind
                  "Reports heap memory utilization."] /\
  Monotonic CounterInstrumentKind = true /\
  Asynchronous CounterInstrumentKind = false /\
  Monotonic CounterObserverInstrumentKind = true /\
  Asynchronous CounterObserverInstrumentKind = true /\
  (exists c, g_meterProvider (globals st0) = Some c /\
             c_collectPeriod c = 5 * time_Second /\
             c_collectPeriod c = 5000000000) /\
  forall reqs writers st,
    serve reqs w st0 = (Ok writers, st) ->
    (forall r, r ∈ exported_spans st ->
       sr_resource r !! "service.name" = Some "hello-app" /\
       sr_resource r !! "service.version" = Some "1.0") /\
    (forall n r, r ∈ collect w n st ->
       mr_resource r !! "service.name" = Some "hello-app" /\
       mr_resource r !! "service.version" = Some "1.0") /\
    (forall n, length (collect w n st) = 2%nat).
Proof.
  intros Hmain.
  pose proof (main_serving w st0 Hmain) as E.
  split; [subst st0; reflexivity |].
  repeat (split; [reflexivity |]).
  split; [subst st0; eexists; repeat split |].
  intros reqs writers st Hrun.
  pose proof (served_globals w st0 reqs writers st Hmain Hrun) as Hg.
  split; [| split].
  - intros r Hin. unfold exported_spans in Hin. rewrite Hg in Hin.
    cbn [booted_globals g_tracerProvider tp_resource] in Hin.
    apply list_elem_of_fmap in Hin as (sp & -> & _). cbn [sr_resource].
    split; [apply res0urce_service_name | apply res0urce_service_version].
  - intros n r Hin. unfold collect in Hin. rewrite Hg in Hin.
    cbn [booted_globals g_meterProvider c_resource g_instruments] in Hin.
    apply list_elem_of_fmap in Hin as (i & -> & _).
    destruct (i_callback i); cbn [mr_resource];
      (split; [apply res0urce_service_name | apply res0urce_service_version]).
  - intros n. unfold collect. rewrite Hg. reflexivity.
Qed.

Lemma telemetry_identity_demo :
  run_main demo_world = (Running BlockServing, serving_state demo_world) /\
  (forall reqs writers st,
     serve reqs demo_world (serving_state demo_world) = (Ok writers, st) ->
     (forall r, r ∈ exported_spans st ->
        sr_resource r !! "service.name" = Some "hello-app" /\
        sr_resource r !! "service.version" = Some "1.0") /\
     (forall n r, r ∈ collect demo_world n st ->
        mr_resource r !! "service.name" = Some "hello-app" /\
        mr_resource r !! "service.version" = Some "1.0") /\
     (forall n, length (collect demo_world n st) = 2%nat)) /\
  length (exported_spans
            (snd (serve [demo_request] demo_world (serving_state demo_world)))) = 3%nat.
Proof.
  split; [exact demo_world_serves |].
  split.
  - exact (proj2 (proj2 (proj2 (proj2 (proj2 (proj2
             (telemetry_identity demo_world (serving_state demo_world)
                demo_world_serves))))))).
  - vm_compute. reflexivity.
Defined.

(** ** The heap-memory instrument *)

Lemma heap_record_booted w n st :
  globals st = booted_globals w ->
  heap_record w n st =
    Some (mkMetricRecord res0urce heap_descriptor
            (Int.to_int64 (HeapAlloc (w_ReadMemStats w n)))
            [(heapMemoryName, heapMemoryDesc)]).
Proof.
  intros Hg. unfold heap_record, collect. rewrite Hg. reflexivity.
Qed.

(** C9.  Once [main] serves, every collection holds one record of the
    heap-memory instrument, and its value is what the callback observes of
    the heap bytes the runtime reports at that collection.  A heap lies
    within the address space of the process, so the reported bytes are below
    2^63; the conversion to [int64] then leaves them as they are: the
    observed value is the reported one and is not negative. *)
Theorem heap_observation w st0 reqs writers st n :
  run_main w = (Running BlockServing, st0) ->
  serve reqs w st0 = (Ok writers, st) ->
  0 <= HeapAlloc (w_ReadMemStats w n) < 2 ^ 63 ->
  exists r,
    heap_record w n st = Some r /\
    r ∈ collect w n st /\
    mr_descriptor r = heap_descriptor /\
    mr_value r = o_value (heapMemoryCallback (w_ReadMemStats w n)) /\
    mr_value r = HeapAlloc (w_ReadMemStats w n) /\
    0 <= mr_value r.
Proof.
  intros Hmain Hrun Hheap.
  pose proof (served_globals w st0 reqs writers st Hmain Hrun) as Hg.
  eexists. split; [apply heap_record_booted; exact Hg |].
  split.
  { unfold collect. rewrite Hg.
    cbn [booted_globals g_meterProvider g_instruments c_resource].
    apply list_elem_of_fmap.
    exists (mkInstrument heap_descriptor (Some heapMemoryCallback)).
    split; [reflexivity |].
    apply list_elem_of_further, list_elem_of_here. }
  cbn [mr_descriptor mr_value heapMemoryCallback o_value].
  rewrite to_int64_small by exact Hheap.
  repeat split. lia.
Qed.

Lemma heap_observation_demo :
  run_main demo_world = (Running BlockServing, serving_state demo_world) /\
  serve [demo_request] demo_world (serving_state demo_world)
    = (Ok [built Http.fresh],
       snd (serve [demo_request] demo_world (serving_state demo_world))) /\
  0 <= HeapAlloc (w_ReadMemStats demo_world 7) < 2 ^ 63 /\
  exists r,
    heap_record demo_world 7
      (snd (serve [demo_request] demo_world (serving_state demo_world))) = Some r /\
    r ∈ collect demo_world 7
          (snd (serve [demo_request] demo_world (serving_state demo_world))) /\
    mr_descriptor r = heap_descriptor /\
    mr_value r = o_value (heapMemoryCallback (w_ReadMemStats demo_world 7)) /\
    mr_value r = HeapAlloc (w_ReadMemStats demo_world 7) /\
    0 <= mr_value r.
Proof.
  assert (Hrun : serve [demo_request] demo_world (serving_state demo_world)
                 = (Ok [built Http.fresh],
                    snd (serve [demo_request] demo_world (serving_state demo_world)))).
  { destruct (serve_request_hello demo_world (serving_state demo_world) demo_request
                (mkBound numberOfExecName [(numberOfExecName, numberOfExecDesc)]))
      as (st1 & Hrun1 & _).
    { eexists. reflexivity. }
    { reflexivity. }
    { reflexivity. }
    cbn [serve]. erewrite bind_Ok by exact Hrun1. reflexivity. }
  assert (Hheap : 0 <= HeapAlloc (w_ReadMemStats demo_world 7) < 2 ^ 63).
  { cbn [demo_world w_ReadMemStats HeapAlloc]. lia. }
  split; [exact demo_world_serves |].
  split; [exact Hrun |].
  split; [exact Hheap |].
  exact (heap_observation demo_world (serving_state demo_world) [demo_request]
           [built Http.fresh]
           (snd (serve [demo_request] demo_world (serving_state demo_world))) 7%nat
           demo_world_serves Hrun Hheap).
Defined.

(** * Further properties of the program *)

(** ** The telemetry state across requests *)

Lemma serve_request_hello_sdk w st req b :
  is_Some (tracer (globals st)) ->
  numberOfExecutions (globals st) = Some b ->
  req_path req = "/hello" ->
  live (sdk st) = ∅ ->
  exists st',
    serve_request req w st = (Ok (built (Http.for_method (req_method req))), st') /\
    live (sdk st') = ∅ /\
    next_id (sdk st') = (3 + next_id (sdk st))%nat /\
    reads (sdk st') = (6 + reads (sdk st))%nat /\
    trace st' =
      trace st ++ [ESpanStart "/hello" (next_id (sdk st))]
        ++ hello_events (started (sdk st)) b ++ [ESpanEnd (next_id (sdk st))].
Proof.
  destruct st as [tr df [tp pr mp t me c ins] [r n lv fin ms]].
  destruct req as [m p ctx].
  intros [t' Ht] Hb Hp Hl.
  cbn [globals tracer numberOfExecutions req_path sdk live] in Ht, Hb, Hp, Hl.
  subst t c p lv.
  unfold hello_events, started, built, response_body.
  run_serve.
  change (String.eqb "/hello" "/hello") with true. run_serve.
  rewrite lookup_insert_eq. run_serve.
  rewrite lookup_insert_eq. run_serve.
  change (1 <? 0) with false. cbv beta iota.
  rewrite !delete_insert_eq.
  rewrite !lookup_delete_ne by lia. rewrite lookup_insert_eq. run_serve.
  eexists. split; [reflexivity |]. cbn [sdk live next_id reads trace].
  split.
  { rewrite (delete_id _ (S n)) by (rewrite lookup_insert_ne by lia; apply lookup_empty).
    rewrite (delete_id _ (S (S n))) by (rewrite lookup_insert_ne by lia; apply lookup_empty).
    rewrite delete_insert_eq. apply delete_empty. }
  split; [reflexivity |]. split; [reflexivity |].
  repeat (rewrite <- app_assoc; cbn [app]). reflexivity.
Qed.

(** ** The ways the process ends *)

(** X1.  The exit code of the process names the cause: 1 after a startup
    failure, and then the controller was neither started nor stopped; 2 after
    a panic of [metric.Must]; 0 after [http.ListenAndServe] returned an
    error.  No other code occurs. *)
Theorem exit_code_names_the_cause w code st :
  run_main w = (Exited code, st) ->
  (code = 1 /\ startup_failure w /\
   (EPusherStart true ∉ trace st) /\ (EPusherStop ∉ trace st))
  \/ (code = 2 /\ pipelines_start w /\ instrument_failure w)
  \/ (code = 0 /\ pipelines_start w /\
      exists err, w_ListenAndServe w ":8888" = ListenErr err).
Proof.
  intros Hmain.
  pose proof (run_main_Startup w) as HS. rewrite Hmain in HS. cbn [fst snd] in HS.
  inversion HS; subst.
  all: match goal with H : _ = trace _ |- _ => rewrite <- H in * end.
  1-4: left; split; [reflexivity |]; split;
    [| expand_events; split; intros Hin; absent Hin].
  - left. eexists; eassumption.
  - right. left. eexists; eassumption.
  - right. right. left. split; [assumption | eexists; eassumption].
  - right. right. right. repeat split; try assumption. eexists; eassumption.
  - right. left. split; [reflexivity |]. split; [repeat split; assumption |].
    left. eexists; eassumption.
  - right. left. split; [reflexivity |]. split; [repeat split; assumption |].
    right. split; [assumption | eexists; eassumption].
  - right. right. split; [reflexivity |]. split; [repeat split; assumption |].
    eexists; eassumption.
Qed.

Lemma exit_code_names_the_cause_demo :
  run_main port_taken_world = (Exited 0, port_taken_state) /\
  ((0 = 1 /\ startup_failure port_taken_world /\
    (EPusherStart true ∉ trace port_taken_state) /\
    (EPusherStop ∉ trace port_taken_state))
   \/ (0 = 2 /\ pipelines_start port_taken_world /\ instrument_failure port_taken_world)
   \/ (0 = 0 /\ pipelines_start port_taken_world /\
       exists err, w_ListenAndServe port_taken_world ":8888" = ListenErr err)).
Proof.
  split; [exact port_taken_world_exits |].
  exact (exit_code_names_the_cause port_taken_world 0 port_taken_state
           port_taken_world_exits).
Defined.

(** X2.  When the pipelines have started and [metric.Must] panics on one of
    the two instruments, the process exits with code 2; the deferred
    [pusher.Stop] has run, as the last event, and [http.ListenAndServe] was
    never called. *)
Theorem instrument_failure_panics w :
  pipelines_start w ->
  instrument_failure w ->
  exists st,
    run_main w = (Exited 2, st) /\
    last (trace st) = Some EPusherStop /\
    defers st = [] /\
    forall addr, EListenAndServe addr ∉ trace st.
Proof.
  intros (H1 & H2 & H3 & H4) Hf.
  unfold_main. rewrite H1. cbv beta iota. rewrite H2. cbv beta iota.
  rewrite H3. cbv beta iota. rewrite H4. cbv beta iota.
  destruct Hf as [[e He] | [Hc [e He]]].
  - rewrite He. cbv beta iota. eexists. split; [reflexivity |].
    cbn [trace defers]. split; [reflexivity |]. split; [reflexivity |].
    intros addr Hin. absent Hin.
  - rewrite Hc. cbv beta iota. rewrite He. cbv beta iota.
    eexists. split; [reflexivity |].
    cbn [trace defers]. split; [reflexivity |]. split; [reflexivity |].
    intros addr Hin. absent Hin.
Qed.

Lemma instrument_failure_panics_demo :
  pipelines_start no_counter_world /\
  instrument_failure no_counter_world /\
  exists st,
    run_main no_counter_world = (Exited 2, st) /\
    last (trace st) = Some EPusherStop /\
    defers st = [] /\
    forall addr, EListenAndServe addr ∉ trace st.
Proof.
  assert (Hp : pipelines_start no_counter_world) by (repeat split).
  assert (Hf : instrument_failure no_counter_world) by (left; eexists; reflexivity).
  split; [exact Hp |]. split; [exact Hf |].
  exact (instrument_failure_panics no_counter_world Hp Hf).
Defined.

(** X3.  When everything is set up and the port cannot be bound, the error
    of [http.ListenAndServe] is dropped: no line is logged at all, [main]
    returns, the deferred [pusher.Stop] runs and the process exits with
    code 0. *)
Theorem bind_failure_is_silent w err :
  pipelines_start w ->
  w_NewInt64Counter w = None ->
  w_NewInt64CounterObserver w = None ->
  w_ListenAndServe w ":8888" = ListenErr err ->
  exists st,
    run_main w = (Exited 0, st) /\
    (forall msg, ELog msg ∉ trace st) /\
    trace st = ev_listen w ++ [EPusherStop] /\
    globals st = booted_globals w.
Proof.
  intros (H1 & H2 & H3 & H4) H5 H6 H7.
  unfold_main. rewrite H1. cbv beta iota. rewrite H2. cbv beta iota.
  rewrite H3. cbv beta iota. rewrite H4. cbv beta iota.
  rewrite H5. cbv beta iota. rewrite H6. cbv beta iota.
  rewrite H7. cbv beta iota.
  eexists. split; [reflexivity |]. cbn [trace globals].
  split; [intros msg Hin; absent Hin |]. split; reflexivity.
Qed.

Lemma bind_failure_is_silent_demo :
  pipelines_start port_taken_world /\
  w_NewInt64Counter port_taken_world = None /\
  w_NewInt64CounterObserver port_taken_world = None /\
  w_ListenAndServe port_taken_world ":8888"
    = ListenErr "listen tcp :8888: bind: address already in use" /\
  exists st,
    run_main port_taken_world = (Exited 0, st) /\
    (forall msg, ELog msg ∉ trace st) /\
    trace st = ev_listen port_taken_world ++ [EPusherStop] /\
    globals st = booted_globals port_taken_world.
Proof.
  assert (Hp : pipelines_start port_taken_world) by (repeat split).
  split; [exact Hp |]. repeat (split; [reflexivity |]).
  exact (bind_failure_is_silent port_taken_world _ Hp eq_refl eq_refl eq_refl).
Defined.

(** X4.  [http.ListenAndServe] is called at most once, on port 8888, and
    only when the whole setup is behind it: the events before the call are
    those of the complete startup (tracer provider, propagator, started
    controller, meter provider and both instruments), and after it comes at
    most the deferred stop. *)
Theorem listen_after_complete_setup w addr :
  EListenAndServe addr ∈ trace (snd (run_main w)) ->
  addr = ":8888" /\
  pipelines_start w /\
  exists before rest,
    ev_listen w = before ++ [EListenAndServe ":8888"] /\
    trace (snd (run_main w)) = before ++ [EListenAndServe ":8888"] ++ rest /\
    [ESetTracerProvider; ESetTextMapPropagator; EPusherStart true; ESetMeterProvider;
     ENewInstrument counter_descriptor; ENewInstrument heap_descriptor] ⊆ before /\
    (forall a, EListenAndServe a ∉ before ++ rest) /\
    (rest = [] \/ rest = [EPusherStop]).
Proof.
  intros Hin. startup_cases w as o st HS.
  all: cbn [snd] in *;
    match goal with H : _ = trace _ |- _ => rewrite <- H in * end.
  1-8: exfalso; expand_events; absent Hin.
  all: assert (addr = ":8888") as ->
    by (expand_events;
        repeat (apply elem_of_cons in Hin as [Hin | Hin];
                [try discriminate Hin; try (injection Hin as ->; reflexivity) |]);
        apply elem_of_nil in Hin; contradiction).
  all: split; [reflexivity |]; split; [repeat split; assumption |].
  all: exists (ev_counter w ++ [ENewInstrument heap_descriptor]).
  1: exists [EPusherStop].
  2: exists [].
  all: split; [unfold ev_listen; rewrite <- app_assoc; reflexivity |].
  all: split; [expand_events; reflexivity |].
  all: split;
    [expand_events; intros e He;
     repeat (apply elem_of_cons in He as [-> | He];
             [repeat (first [apply list_elem_of_here | apply list_elem_of_further]) |]);
     apply elem_of_nil in He; contradiction |].
  all: split; [intros a Ha; expand_events; absent Ha |].
  - right. reflexivity.
  - left. reflexivity.
Qed.

Lemma listen_after_complete_setup_demo :
  EListenAndServe ":8888" ∈ trace (snd (run_main demo_world)) /\
  ":8888" = ":8888" /\
  pipelines_start demo_world /\
  exists before rest,
    ev_listen demo_world = before ++ [EListenAndServe ":8888"] /\
    trace (snd (run_main demo_world)) = before ++ [EListenAndServe ":8888"] ++ rest /\
    [ESetTracerProvider; ESetTextMapPropagator; EPusherStart true; ESetMeterProvider;
     ENewInstrument counter_descriptor; ENewInstrument heap_descriptor] ⊆ before /\
    (forall a, EListenAndServe a ∉ before ++ rest) /\
    (rest = [] \/ rest = [EPusherStop]).
Proof.
  assert (Hin : EListenAndServe ":8888" ∈ trace (snd (run_main demo_world))).
  { rewrite demo_world_serves. cbn [snd serving_state trace]. expand_events.
    repeat (first [apply list_elem_of_here | apply list_elem_of_further]). }
  split; [exact Hin |].
  exact (listen_after_complete_setup demo_world ":8888" Hin).
Defined.

(** X5.  When the dial of an exporter never returns, the process neither
    exits nor serves: it stays in the dial, has logged nothing and has not
    called [http.ListenAndServe]. *)
Theorem blocked_dial_hangs_silently w :
  dial_blocks w ->
  exists why st,
    run_main w = (Running why, st) /\
    why <> BlockServing /\
    (forall msg, ELog msg ∉ trace st) /\
    (forall addr, EListenAndServe addr ∉ trace st) /\
    g_meterProvider (globals st) = None.
Proof.
  intros (H1 & [H2 | [H2 H3]]).
  - unfold_main. rewrite H1. cbv beta iota. rewrite H2. cbv beta iota.
    do 2 eexists. split; [reflexivity |]. split; [discriminate |].
    cbn [trace globals g_meterProvider].
    split; [intros msg Hin; absent Hin |].
    split; [intros addr Hin; absent Hin | reflexivity].
  - unfold_main. rewrite H1. cbv beta iota. rewrite H2. cbv beta iota.
    rewrite H3. cbv beta iota.
    do 2 eexists. split; [reflexivity |]. split; [discriminate |].
    cbn [trace globals g_meterProvider].
    split; [intros msg Hin; absent Hin |].
    split; [intros addr Hin; absent Hin | reflexivity].
Qed.

Lemma blocked_dial_hangs_silently_demo :
  dial_blocks silent_receiver_world /\
  exists why st,
    run_main silent_receiver_world = (Running why, st) /\
    why <> BlockServing /\
    (forall msg, ELog msg ∉ trace st) /\
    (forall addr, EListenAndServe addr ∉ trace st) /\
    g_meterProvider (globals st) = None.
Proof.
  assert (Hb : dial_blocks silent_receiver_world).
  { split; [reflexivity |]. right. split; reflexivity. }
  split; [exact Hb |].
  exact (blocked_dial_hangs_silently silent_receiver_world Hb).
Defined.

(** X16.  When the metric exporter or the controller fails, the trace
    pipeline is already in place: the process exits with code 1 with the
    tracer provider and the propagator installed, and no deferred call has
    run or is pending, so nothing releases what was set up. *)
Theorem metric_failure_leaves_trace_pipeline w :
  metric_pipeline_failure w ->
  exists st,
    run_main w = (Exited 1, st) /\
    g_tracerProvider (globals st)
      = Some (mkTracerProvider AlwaysSample res0urce (dial_config w)) /\
    g_propagator (globals st) = [Baggage; TraceContext] /\
    g_meterProvider (globals st) = None /\
    defers st = [] /\
    EPusherStop ∉ trace st.
Proof.
  intros (H1 & H2 & [[e He] | [H3 [e He]]]).
  - unfold_main. rewrite H1. cbv beta iota. rewrite H2. cbv beta iota.
    rewrite He. cbv beta iota.
    eexists. split; [reflexivity |].
    cbn [globals g_tracerProvider g_propagator g_meterProvider defers trace].
    repeat (split; [reflexivity |]). intros Hin. absent Hin.
  - unfold_main. rewrite H1. cbv beta iota. rewrite H2. cbv beta iota.
    rewrite H3. cbv beta iota. rewrite He. cbv beta iota.
    eexists. split; [reflexivity |].
    cbn [globals g_tracerProvider g_propagator g_meterProvider defers trace].
    repeat (split; [reflexivity |]). intros Hin. absent Hin.
Qed.

Lemma metric_failure_leaves_trace_pipeline_demo :
  metric_pipeline_failure failing_world /\
  exists st,
    run_main failing_world = (Exited 1, st) /\
    g_tracerProvider (globals st)
      = Some (mkTracerProvider AlwaysSample res0urce (dial_config failing_world)) /\
    g_propagator (globals st) = [Baggage; TraceContext] /\
    g_meterProvider (globals st) = None /\
    defers st = [] /\
    EPusherStop ∉ trace st.
Proof.
  assert (Hf : metric_pipeline_failure failing_world).
  { split; [reflexivity |]. split; [reflexivity |].
    right. split; [reflexivity | eexists; reflexivity]. }
  split; [exact Hf |].
  exact (metric_failure_leaves_trace_pipeline failing_world Hf).
Defined.

(** ** [buildResponse] on any writer *)







(** ** [hello] and the package variables *)

Lemma hello_without_tracer w st writer req :
  tracer (globals st) = None ->
  hello writer req w st
    = (Panic "invalid memory address or nil pointer dereference", st).
Proof.
  destruct st as [tr df [tp pr mp t me c ins] [r n lv fin ms]].
  cbn [globals tracer]. intros ->. run_go. reflexivity.
Qed.

Lemma hello_without_counter w st writer req :
  is_Some (tracer (globals st)) ->
  numberOfExecutions (globals st) = None ->
  exists st',
    hello writer req w st
      = (Panic "invalid memory address or nil pointer dereference", st') /\
    trace st' =
      trace st ++
        [ESpanStart "buildResponse" (next_id (sdk st));
         EWriteHeader Http.StatusOK;
         EHeaderAdd "Content-Type" "application/json";
         EWrite response_body;
         ESpanEnd (next_id (sdk st));
         ESpanStart "mySpan" (S (next_id (sdk st)));
         ELog "The response is valid";
         ESpanEnd (S (next_id (sdk st)))].
Proof.
  destruct st as [tr df [tp pr mp t me c ins] [r n lv fin ms]].
  cbn [globals tracer numberOfExecutions sdk next_id trace].
  intros [t' ->] ->. unfold response_body. run_go.
  rewrite lookup_insert_eq. run_go.
  rewrite lookup_insert_eq. run_go.
  eexists. split; [reflexivity |]. cbn [trace].
  repeat (rewrite <- app_assoc; cbn [app]). reflexivity.
Qed.

(** X8.  The handler returns normally exactly when [main] has set both
    package variables it uses ([tracer] and [numberOfExecutions]).  Without
    the tracer it panics at once and leaves the state as it was; with the
    tracer but without the counter it panics at the [Add], after the response
    has been written and both spans have ended. *)
Theorem hello_returns_iff_Ready w st writer req :
  ((exists writer' st', hello writer req w st = (Ok writer', st')) <-> Ready st) /\
  (tracer (globals st) = None ->
   exists msg, hello writer req w st = (Panic msg, st)) /\
  (is_Some (tracer (globals st)) ->
   numberOfExecutions (globals st) = None ->
   exists msg st' before,
     hello writer req w st = (Panic msg, st') /\
     trace st' = trace st ++ before ++ [ESpanEnd (S (next_id (sdk st)))] /\
     EWrite response_body ∈ before).
Proof.
  split; [split |].
  - intros (writer' & st' & Hrun).
    destruct (tracer (globals st)) as [t |] eqn:Ht.
    + destruct (numberOfExecutions (globals st)) as [b |] eqn:Hb.
      * split; eexists; eassumption.
      * destruct (hello_without_counter w st writer req) as (st1 & Hp & _);
          [eexists; exact Ht | exact Hb |].
        rewrite Hp in Hrun. discriminate Hrun.
    + rewrite (hello_without_tracer w st writer req Ht) in Hrun. discriminate Hrun.
  - intros HR. destruct (hello_Ready w st writer req HR) as (b & _ & Hrun).
    do 2 eexists. exact Hrun.
  - split.
    + intros Ht. eexists. apply hello_without_tracer. exact Ht.
    + intros Ht Hb.
      destruct (hello_without_counter w st writer req Ht Hb) as (st1 & Hp & Htr).
      eexists. exists st1.
      exists [ESpanStart "buildResponse" (next_id (sdk st));
              EWriteHeader Http.StatusOK;
              EHeaderAdd "Content-Type" "application/json";
              EWrite response_body;
              ESpanEnd (next_id (sdk st));
              ESpanStart "mySpan" (S (next_id (sdk st)));
              ELog "The response is valid"].
      split; [exact Hp |]. split; [exact Htr |].
      repeat (first [apply list_elem_of_here | apply list_elem_of_further]).
Qed.

Lemma hello_returns_iff_Ready_demo :
  tracer (globals cold_state) = None /\
  (exists msg,
     hello Http.fresh demo_request demo_world cold_state = (Panic msg, cold_state)) /\
  Ready (serving_state demo_world) /\
  exists writer' st',
    hello Http.fresh demo_request demo_world (serving_state demo_world)
      = (Ok writer', st').
Proof.
  split; [reflexivity |].
  split.
  - exact (proj1 (proj2 (hello_returns_iff_Ready demo_world cold_state Http.fresh
                           demo_request)) eq_refl).
  - split; [apply serving_state_Ready |].
    exact (proj2 (proj1 (hello_returns_iff_Ready demo_world (serving_state demo_world)
                           Http.fresh demo_request))
             (serving_state_Ready demo_world)).
Defined.



(** X10.  The increment of the counter is recorded under the context that
    the first [tracer.Start] returned: it carries the span buildResponse,
    which has already ended by then, and not the span of the request's own
    context. *)
Theorem increment_carries_buildResponse_span w st writer req :
  Ready st ->
  sampled (globals st) = true ->
  exists writer' st' b1 e1 m,
    hello writer req w st = (Ok writer', st') /\
    b1 ∈ finished (sdk st') /\
    span_name b1 = "buildResponse" /\
    span_id b1 = next_id (sdk st) /\
    end_time b1 = Some e1 /\
    last (measurements (sdk st')) = Some m /\
    m_delta m = 1 /\
    m_ctx m = mkContext (Some (span_id b1)) /\
    (ctx_span (req_ctx req) <> Some (next_id (sdk st)) -> m_ctx m <> req_ctx req).
Proof.
  intros HR Hs.
  destruct (hello_Ready w st writer req HR) as (b & Hb & Hrun).
  exists (built writer). eexists.
  exists (buildResponse_span w (sdk st) req), (w_time_Now w (S (reads (sdk st)))).
  eexists.
  split; [exact Hrun |].
  cbn [with_sdk emitted sdk hello_sdk finished measurements].
  rewrite Hs.
  split.
  { apply elem_of_app. right. apply list_elem_of_here. }
  split; [reflexivity |]. split; [reflexivity |]. split; [reflexivity |].
  split; [apply last_snoc |].
  cbn [m_delta m_ctx buildResponse_span span_id].
  split; [reflexivity |]. split; [reflexivity |].
  intros Hne Heq. apply Hne. rewrite <- Heq. reflexivity.
Qed.

Lemma increment_carries_buildResponse_span_demo :
  Ready (serving_state demo_world) /\
  sampled (globals (serving_state demo_world)) = true /\
  exists writer' st' b1 e1 m,
    hello Http.fresh demo_request demo_world (serving_state demo_world)
      = (Ok writer', st') /\
    b1 ∈ finished (sdk st') /\
    span_name b1 = "buildResponse" /\
    span_id b1 = next_id (sdk (serving_state demo_world)) /\
    end_time b1 = Some e1 /\
    last (measurements (sdk st')) = Some m /\
    m_delta m = 1 /\
    m_ctx m = mkContext (Some (span_id b1)) /\
    (ctx_span (req_ctx demo_request) <> Some (next_id (sdk (serving_state demo_world))) ->
     m_ctx m <> req_ctx demo_request).
Proof.
  split; [apply serving_state_Ready |]. split; [reflexivity |].
  exact (increment_carries_buildResponse_span demo_world (serving_state demo_world)
           Http.fresh demo_request (serving_state_Ready demo_world) eq_refl).
Defined.

(** ** Spans and the counter over any sequence of requests *)

Lemma sampled_booted w : sampled (booted_globals w) = true.
Proof. reflexivity. Qed.

(** What the requests of a list keep: no span is left open, every span
    handed to the processor has ended, and each request to /hello adds three
    spans. *)
Lemma serve_spans w reqs :
  forall st b,
    is_Some (tracer (globals st)) ->
    numberOfExecutions (globals st) = Some b ->
    sampled (globals st) = true ->
    live (sdk st) = ∅ ->
    (forall sp, sp ∈ finished (sdk st) -> is_Some (end_time sp)) ->
    exists writers st',
      serve reqs w st = (Ok writers, st') /\
      live (sdk st') = ∅ /\
      (forall sp, sp ∈ finished (sdk st') -> is_Some (end_time sp)) /\
      length (finished (sdk st')) =
        (length (finished (sdk st)) + 3 * hello_count reqs)%nat.
Proof.
  induction reqs as [| req reqs IH]; intros st b Ht Hb Hs Hl Hfin.
  - exists [], st. split; [reflexivity |]. repeat split; try assumption.
    unfold hello_count. cbn. lia.
  - cbn [serve].
    destruct (String.eqb_spec (req_path req) "/hello") as [E | NE].
    + destruct (serve_request_hello w st req b Ht Hb E)
        as (st1 & Hrun & Hg & _ & _ & Hf).
      destruct (serve_request_hello_sdk w st req b Ht Hb E Hl)
        as (st1' & Hrun' & Hl1 & _).
      rewrite Hrun in Hrun'. injection Hrun' as <-.
      rewrite Hs in Hf.
      assert (Hfin1 : forall sp, sp ∈ finished (sdk st1) -> is_Some (end_time sp)).
      { intros sp Hin. rewrite Hf in Hin.
        apply elem_of_app in Hin as [Hin | Hin]; [exact (Hfin sp Hin) |].
        repeat (apply elem_of_cons in Hin as [-> | Hin];
                [cbn [buildResponse_span mySpan_span root_span end_time];
                 eexists; reflexivity |]).
        apply elem_of_nil in Hin. contradiction. }
      destruct (IH st1 b) as (writers & st' & Hrun2 & Hl2 & Hfin2 & Hlen2);
        try assumption.
      { rewrite Hg. exact Ht. }
      { rewrite Hg. exact Hb. }
      { rewrite Hg. exact Hs. }
      exists (built (Http.for_method (req_method req)) :: writers), st'.
      split.
      { erewrite bind_Ok by exact Hrun. erewrite bind_Ok by exact Hrun2. reflexivity. }
      split; [exact Hl2 |]. split; [exact Hfin2 |].
      rewrite Hlen2, Hf, length_app. cbn [length].
      unfold hello_count. cbn [List.filter]. rewrite E.
      change (String.eqb "/hello" "/hello") with true. cbn [length]. lia.
    + destruct (serve_request_other w st req NE) as (writer & Hrun).
      destruct (IH st b Ht Hb Hs Hl Hfin)
        as (writers & st' & Hrun2 & Hl2 & Hfin2 & Hlen2).
      exists (writer :: writers), st'.
      split.
      { erewrite bind_Ok by exact Hrun. erewrite bind_Ok by exact Hrun2. reflexivity. }
      split; [exact Hl2 |]. split; [exact Hfin2 |].
      rewrite Hlen2. unfold hello_count. cbn [List.filter].
      destruct (String.eqb_spec (req_path req) "/hello"); [contradiction | reflexivity].
Qed.

Lemma serve_spans_serving w reqs :
  exists writers st,
    serve reqs w (serving_state w) = (Ok writers, st) /\
    live (sdk st) = ∅ /\
    (forall sp, sp ∈ finished (sdk st) -> is_Some (end_time sp)) /\
    length (finished (sdk st)) = (3 * hello_count reqs)%nat.
Proof.
  destruct (serve_spans w reqs (serving_state w)
              (mkBound numberOfExecName [(numberOfExecName, numberOfExecDesc)]))
    as (writers & st & Hrun & Hl & Hfin & Hlen).
  - eexists. reflexivity.
  - reflexivity.
  - reflexivity.
  - reflexivity.
  - intros sp Hin. cbn [serving_state sdk finished] in Hin.
    apply elem_of_nil in Hin. contradiction.
  - exists writers, st. repeat split; assumption.
Qed.

(** X11.  After any sequence of requests no span is left open: every span
    that was started has been ended, and every span handed to the span
    processor carries an end time. *)
Theorem no_span_left_open w st0 reqs writers st :
  run_main w = (Running BlockServing, st0) ->
  serve reqs w st0 = (Ok writers, st) ->
  live (sdk st) = ∅ /\
  forall sp, sp ∈ finished (sdk st) -> is_Some (end_time sp).
Proof.
  intros Hmain Hrun. apply main_serving in Hmain. subst st0.
  destruct (serve_spans_serving w reqs) as (writers' & st' & Hrun' & Hl & Hfin & _).
  rewrite Hrun in Hrun'. injection Hrun' as _ <-.
  split; [exact Hl |]. exact Hfin.
Qed.

Lemma no_span_left_open_demo :
  run_main demo_world = (Running BlockServing, serving_state demo_world) /\
  exists writers st,
    serve [demo_request; demo_request] demo_world (serving_state demo_world)
      = (Ok writers, st) /\
    live (sdk st) = ∅ /\
    forall sp, sp ∈ finished (sdk st) -> is_Some (end_time sp).
Proof.
  split; [exact demo_world_serves |].
  destruct (serve_run demo_world [demo_request; demo_request]
              (serving_state demo_world)
              (mkBound numberOfExecName [(numberOfExecName, numberOfExecDesc)]))
    as (writers & st & Hrun & _).
  { eexists. reflexivity. }
  { reflexivity. }
  exists writers, st. split; [exact Hrun |].
  exact (no_span_left_open demo_world (serving_state demo_world)
           [demo_request; demo_request] writers st demo_world_serves Hrun).
Defined.

(** X12.  Each request to /hello hands exactly three spans to the span
    processor (the route's span and the two of the handler), and a request
    to another path none: after any sequence of requests the spans handed
    over, and the span records exported, are three times the requests to
    /hello. *)
Theorem three_spans_per_hello_request w st0 reqs writers st :
  run_main w = (Running BlockServing, st0) ->
  serve reqs w st0 = (Ok writers, st) ->
  length (finished (sdk st)) = (3 * hello_count reqs)%nat /\
  length (exported_spans st) = (3 * hello_count reqs)%nat.
Proof.
  intros Hmain Hrun.
  pose proof (served_globals w st0 reqs writers st Hmain Hrun) as Hg.
  apply main_serving in Hmain. subst st0.
  destruct (serve_spans_serving w reqs)
    as (writers' & st' & Hrun' & _ & _ & Hlen).
  rewrite Hrun in Hrun'. injection Hrun' as _ <-.
  split; [exact Hlen |].
  unfold exported_spans. rewrite Hg.
  cbn [booted_globals g_tracerProvider tp_resource].
  rewrite length_fmap. exact Hlen.
Qed.

Lemma three_spans_per_hello_request_demo :
  run_main demo_world = (Running BlockServing, serving_state demo_world) /\
  exists writers st,
    serve [demo_request; mkRequest "GET" "/metrics" context_Background; demo_request]
          demo_world (serving_state demo_world) = (Ok writers, st) /\
    length (finished (sdk st)) = 6%nat /\
    length (exported_spans st) = 6%nat.
Proof.
  split; [exact demo_world_serves |].
  destruct (serve_run demo_world
              [demo_request; mkRequest "GET" "/metrics" context_Background; demo_request]
              (serving_state demo_world)
              (mkBound numberOfExecName [(numberOfExecName, numberOfExecDesc)]))
    as (writers & st & Hrun & _).
  { eexists. reflexivity. }
  { reflexivity. }
  exists writers, st. split; [exact Hrun |].
  exact (three_spans_per_hello_request demo_world (serving_state demo_world)
           [demo_request; mkRequest "GET" "/metrics" context_Background; demo_request]
           writers st demo_world_serves Hrun).
Defined.

(** X13.  Among requests to any paths, the counter counts the requests to
    /hello and nothing else: after any sequence of requests its accumulated
    value, and the number of recorded increments, is the number of requests
    whose path is /hello. *)
Theorem counter_counts_only_hello w st0 reqs :
  run_main w = (Running BlockServing, st0) ->
  exists writers st,
    serve reqs w st0 = (Ok writers, st) /\
    length writers = length reqs /\
    accumulated numberOfExecName (sdk st) = Z.of_nat (hello_count reqs) /\
    (hello_count reqs <= length reqs)%nat.
Proof.
  intros Hmain. apply main_serving in Hmain. subst st0.
  destruct (serve_run w reqs (serving_state w)
              (mkBound numberOfExecName [(numberOfExecName, numberOfExecDesc)]))
    as (writers & st & Hrun & _ & _ & Hl & Hacc).
  { eexists. reflexivity. }
  { reflexivity. }
  exists writers, st. split; [exact Hrun |]. split; [exact Hl |].
  split.
  - cbn [b_instrument] in Hacc. rewrite Hacc. unfold accumulated. cbn. lia.
  - unfold hello_count. apply List.filter_length_le.
Qed.

Lemma counter_counts_only_hello_demo :
  run_main demo_world = (Running BlockServing, serving_state demo_world) /\
  exists writers st,
    serve [demo_request; mkRequest "GET" "/metrics" context_Background; demo_request]
          demo_world (serving_state demo_world) = (Ok writers, st) /\
    length writers = 3%nat /\
    accumulated numberOfExecName (sdk st) = 2 /\
    (2 <= 3)%nat.
Proof.
  split; [exact demo_world_serves |].
  exact (counter_counts_only_hello demo_world (serving_state demo_world)
           [demo_request; mkRequest "GET" "/metrics" context_Background; demo_request]
           demo_world_serves).
Defined.

(** X14.  For a request to /hello the three spans form a chain: the
    route's span is the child of the span the incoming request carries,
    buildResponse is the child of the route's span and mySpan the child of
    buildResponse.  With a clock that does not run backwards the route's
    span encloses both spans of the handler in time. *)
Theorem route_span_encloses_handler_spans w st req :
  Ready st ->
  sampled (globals st) = true ->
  req_path req = "/hello" ->
  (forall i j : nat, (i <= j)%nat -> w_time_Now w i <= w_time_Now w j) ->
  exists writer st' root b1 b2 e0 e1 e2,
    serve_request req w st = (Ok writer, st') /\
    finished (sdk st') = finished (sdk st) ++ [b1; b2; root] /\
    span_name root = "/hello" /\
    span_name b1 = "buildResponse" /\
    span_name b2 = "mySpan" /\
    parent_id root = ctx_span (req_ctx req) /\
    parent_id b1 = Some (span_id root) /\
    parent_id b2 = Some (span_id b1) /\
    end_time root = Some e0 /\
    end_time b1 = Some e1 /\
    end_time b2 = Some e2 /\
    start_time root <= start_time b1 /\
    e1 <= start_time b2 /\
    e2 <= e0.
Proof.
  intros [Ht [b Hb]] Hs Hp Hclock.
  destruct (serve_request_hello w st req b Ht Hb Hp) as (st' & Hrun & _ & _ & _ & Hf).
  rewrite Hs in Hf.
  exists (built (Http.for_method (req_method req))), st'.
  exists (root_span w (sdk st) req).
  exists (buildResponse_span w (started (sdk st)) (inside (sdk st) req)).
  exists (mySpan_span w (started (sdk st))).
  do 3 eexists.
  split; [exact Hrun |]. split; [exact Hf |].
  cbn [root_span buildResponse_span mySpan_span started inside
       span_name span_id parent_id start_time end_time reads next_id
       req_ctx ctx_span].
  repeat (split; [reflexivity |]).
  repeat split; apply Hclock; lia.
Qed.

Lemma route_span_encloses_handler_spans_demo :
  Ready (serving_state demo_world) /\
  sampled (globals (serving_state demo_world)) = true /\
  req_path demo_request = "/hello" /\
  (forall i j : nat, (i <= j)%nat -> w_time_Now demo_world i <= w_time_Now demo_world j) /\
  exists writer st' root b1 b2 e0 e1 e2,
    serve_request demo_request demo_world (serving_state demo_world) = (Ok writer, st') /\
    finished (sdk st') = finished (sdk (serving_state demo_world)) ++ [b1; b2; root] /\
    span_name root = "/hello" /\
    span_name b1 = "buildResponse" /\
    span_name b2 = "mySpan" /\
    parent_id root = ctx_span (req_ctx demo_request) /\
    parent_id b1 = Some (span_id root) /\
    parent_id b2 = Some (span_id b1) /\
    end_time root = Some e0 /\
    end_time b1 = Some e1 /\
    end_time b2 = Some e2 /\
    start_time root <= start_time b1 /\
    e1 <= start_time b2 /\
    e2 <= e0.
Proof.
  assert (Hclock : forall i j : nat,
             (i <= j)%nat -> w_time_Now demo_world i <= w_time_Now demo_world j).
  { intros i j Hij. cbn [demo_world w_time_Now]. lia. }
  split; [apply serving_state_Ready |]. split; [reflexivity |].
  split; [reflexivity |]. split; [exact Hclock |].
  exact (route_span_encloses_handler_spans demo_world (serving_state demo_world)
           demo_request (serving_state_Ready demo_world) eq_refl eq_refl Hclock).
Defined.

(** ** The conversion in the heap-memory callback *)

(** X15.  For every heap size the runtime can report (a [uint64]), the
    value the callback observes fits [int64] and keeps all 64 bits:
    converted back with [uint64] it is the reported size.  It is negative
    exactly when the size is 2^63 or more. *)
Theorem heap_observation_keeps_the_bits mem :
  Int.is_uint64 (HeapAlloc mem) ->
  Int.is_int64 (o_value (heapMemoryCallback mem)) /\
  to_uint64 (o_value (heapMemoryCallback mem)) = HeapAlloc mem /\
  (o_value (heapMemoryCallback mem) < 0 <-> 2 ^ 63 <= HeapAlloc mem) /\
  o_attrs (heapMemoryCallback mem) = [(heapMemoryName, heapMemoryDesc)].
Proof.
  unfold Int.is_uint64, Int.uint64_max. intros Hx.
  unfold heapMemoryCallback. cbn [o_value o_attrs].
  split; [apply to_int64_range |].
  destruct (Z.lt_ge_cases (HeapAlloc mem) (2 ^ 63)) as [Hlt | Hge].
  - rewrite to_int64_small by lia.
    split; [unfold to_uint64; apply Z.mod_small; lia |].
    split; [lia | reflexivity].
  - rewrite to_int64_large by lia.
    split.
    + unfold to_uint64.
      replace (HeapAlloc mem - 2 ^ 64) with (HeapAlloc mem + (-1) * 2 ^ 64) by lia.
      rewrite Z.mod_add by lia. apply Z.mod_small. lia.
    + split; [lia | reflexivity].
Qed.

Lemma heap_observation_keeps_the_bits_demo :
  Int.is_uint64 (HeapAlloc (mkMemStats 9223372036854775813)) /\
  Int.is_int64 (o_value (heapMemoryCallback (mkMemStats 9223372036854775813))) /\
  to_uint64 (o_value (heapMemoryCallback (mkMemStats 9223372036854775813)))
    = HeapAlloc (mkMemStats 9223372036854775813) /\
  (o_value (heapMemoryCallback (mkMemStats 9223372036854775813)) < 0
   <-> 2 ^ 63 <= HeapAlloc (mkMemStats 9223372036854775813)) /\
  o_attrs (heapMemoryCallback (mkMemStats 9223372036854775813))
    = [(heapMemoryName, heapMemoryDesc)].
Proof.
  assert (Hx : Int.is_uint64 (HeapAlloc (mkMemStats 9223372036854775813))).
  { unfold Int.is_uint64, Int.uint64_max. cbn [HeapAlloc]. lia. }
  split; [exact Hx |].
  exact (heap_observation_keeps_the_bits (mkMemStats 9223372036854775813) Hx).
Defined.
